(** * RSI signal bot: fetch, compute, decide, notify

    A shallow embedding of [bot.py]: the retry loop of
    [KlineFetcher.fetch_klines], the guarded computation of
    [RsiCalculator.calculate_rsi], the threshold decision of
    [DiscordBot.check_rsi_and_notify] and the arming of the hourly job in
    [DiscordBot.on_ready] / [DiscordBot.periodic_rsi_check].

    Python values are an inductive type, Python [int]s are [Z], floats are
    IEEE binary64 values of the Standard Library's [spec_float].  Side
    effects (HTTP requests, sleeps, printed lines, chat messages) are the
    events of a trace; the network, the chat platform and the indicator
    library are the environment the program runs in. *)

From Stdlib Require Import ZArith List String Ascii Bool Lia.
From Stdlib Require Import Decimal DecimalString.
From Stdlib Require Import Floats.SpecFloat.
Import ListNotations.

Local Open Scope string_scope.
Local Open Scope list_scope.
Local Open Scope Z_scope.

(** ** Python values *)

Module Py.

(** What [response.json()] can produce, and so what flows through the
    pipeline: [None], booleans, integers, floats, strings, lists, dicts.  A
    dict is kept as its list of items; a key is looked up at its first item. *)
#[warnings="-register-all"] Inductive value :=
| VNone
| VBool (b : bool)
| VInt (z : Z)
| VFloat (f : spec_float)
| VStr (s : string)
| VList (items : list value)
| VDict (items : list (string * value)).

(** Exceptions the program tells apart: [requests.exceptions.HTTPError]
    carries the response status, every other [Exception] only matters
    through its class name and [str(e)]. *)
Inductive exn :=
| HTTPError (status_code : Z)
| Error (cls : string) (msg : string).

(** [str(i)] for an [int], as an f-string formats it. *)
Definition str_int (i : Z) : string := NilZero.string_of_int (Z.to_int i).

(** [str(e)] as printed by the generic handler. *)
Definition str_exn (e : exn) : string :=
  match e with
  | HTTPError status => (str_int status ++ " Error")%string
  | Error _ msg => msg
  end.

Fixpoint dict_get (items : list (string * value)) (key : string) : option value :=
  match items with
  | [] => None
  | (k, v) :: rest => if String.eqb k key then Some v else dict_get rest key
  end.

(** Substring test, [needle in haystack] on two [str]. *)
Fixpoint str_contains (needle haystack : string) : bool :=
  match haystack with
  | EmptyString => String.eqb needle EmptyString
  | String _ rest =>
      String.prefix needle haystack || str_contains needle rest
  end.

(** [v == "list"]-style comparison of a value with a string. *)
Definition eq_str (v : value) (s : string) : bool :=
  match v with
  | VStr t => String.eqb t s
  | _ => false
  end.

(** [key in container] for a string key: dict membership, substring test on
    a [str], element test on a list, [TypeError] on anything else. *)
Definition contains (container : value) (key : string) : exn + bool :=
  match container with
  | VDict items =>
      inr (match dict_get items key with Some _ => true | None => false end)
  | VStr s => inr (str_contains key s)
  | VList items => inr (existsb (fun v => eq_str v key) items)
  | _ => inl (Error "TypeError" "argument is not iterable")
  end.

(** [container[key]] for a string key. *)
Definition getitem (container : value) (key : string) : exn + value :=
  match container with
  | VDict items =>
      match dict_get items key with
      | Some v => inr v
      | None => inl (Error "KeyError" ("'" ++ key ++ "'")%string)
      end
  | VStr _ => inl (Error "TypeError" "string indices must be integers")
  | VList _ => inl (Error "TypeError" "list indices must be integers or slices, not str")
  | _ => inl (Error "TypeError" "object is not subscriptable")
  end.

(** Truth value of an object in an [if]. *)
Definition truthy (v : value) : bool :=
  match v with
  | VNone => false
  | VBool b => b
  | VInt z => negb (z =? 0)
  | VFloat (S754_zero _) => false
  | VFloat _ => true
  | VStr s => negb (String.eqb s EmptyString)
  | VList items => match items with [] => false | _ => true end
  | VDict items => match items with [] => false | _ => true end
  end.

(** [x is not None]. *)
Definition is_not_none (v : value) : bool :=
  match v with VNone => false | _ => true end.

(** [int(x)] on a float: truncation toward zero; [ValueError] on NaN and
    [OverflowError] on an infinity. *)
Definition int_of_float (x : spec_float) : exn + Z :=
  match x with
  | S754_zero _ => inr 0
  | S754_infinity _ =>
      inl (Error "OverflowError" "cannot convert float infinity to integer")
  | S754_nan => inl (Error "ValueError" "cannot convert float NaN to integer")
  | S754_finite s m e =>
      let mag := if 0 <=? e then Z.pos m * 2 ^ e else Z.pos m / 2 ^ (- e) in
      inr (if s then - mag else mag)
  end.

End Py.
Import Py.

(** ** Effects *)

(** What the process does, in order: requests, sleeps, printed lines and
    calls of [channel.send].  [ECall] is a ghost event that marks the entry
    of a method, so that check cycles can be counted in a trace. *)
Inductive event :=
| EGet (url : string)
| ESleep (seconds : Z)
| EPrint (line : string)
| ESend (channel_id : Z) (message : string)
| ECall (method : string).

(** Answer of the market-data endpoint to one [requests.get]: either the call
    itself raises (connection refused, timeout, ...) or a response arrives
    with a status code and a body that [response.json()] parses or not. *)
Inductive http_reply :=
| ConnectionFailed (msg : string)
| Response (status_code : Z) (body : string + value).

Record response := { status_code : Z; body : string + value }.

(** The environment of one run: the reply to the k-th request, whether the
    chat client knows the channel, and whether the k-th delivery fails. *)
Record Env := {
  http : nat -> http_reply;
  get_channel : Z -> bool;
  delivery : nat -> option exn
}.

(** A job handed to a started scheduler: [add_job(func, trigger, minute=m)]. *)
Record Job := { func : string; trigger : string; minute : Z }.

(** Progress through the environment, and the jobs armed so far. *)
Record Counters := { gets : nat; sends : nat; jobs : list Job }.

(** How a computation ends: with a value, with an exception, or, in the
    model only, cut short because the loop was given too little fuel. *)
Inductive outcome (A : Type) :=
| Returned (a : A)
| Raised (e : exn)
| OutOfFuel.
Arguments Returned {A} a.
Arguments Raised {A} e.
Arguments OutOfFuel {A}.

(** A computation reads the environment, advances the counters and leaves a
    trace of events. *)
Definition M (A : Type) : Type :=
  Env -> Counters -> outcome A * Counters * list event.

Definition ret {A} (a : A) : M A := fun _ c => (Returned a, c, []).

Definition raise {A} (e : exn) : M A := fun _ c => (Raised e, c, []).

Definition bind {A B} (m : M A) (k : A -> M B) : M B :=
  fun env c =>
    match m env c with
    | (Returned a, c1, t1) =>
        let '(r, c2, t2) := k a env c1 in (r, c2, t1 ++ t2)
    | (Raised e, c1, t1) => (Raised e, c1, t1)
    | (OutOfFuel, c1, t1) => (OutOfFuel, c1, t1)
    end.

(** [try: body  except Exception as e: handler(e)]: an exception raised by
    the handler itself is not caught again. *)
Definition try_except {A} (body : M A) (handler : exn -> M A) : M A :=
  fun env c =>
    match body env c with
    | (Raised e, c1, t1) =>
        let '(r, c2, t2) := handler e env c1 in (r, c2, t1 ++ t2)
    | other => other
    end.

Definition lift {A} (r : exn + A) : M A :=
  match r with
  | inl e => raise e
  | inr a => ret a
  end.

Definition emit (e : event) : M unit := fun _ c => (Returned tt, c, [e]).

Declare Scope py_scope.
Delimit Scope py_scope with py.
Notation "x <- m ;; k" := (bind m (fun x => k))
  (at level 61, m at next level, right associativity) : py_scope.
Notation "m ;; k" := (bind m (fun _ => k))
  (at level 61, right associativity) : py_scope.
Local Open Scope py_scope.

Definition print (line : string) : M unit := emit (EPrint line).

(** [time.sleep(secs)]: a negative length is a [ValueError]. *)
Definition time_sleep (secs : Z) : M unit :=
  if secs <? 0
  then raise (Error "ValueError" "sleep length must be non-negative")
  else emit (ESleep secs).

(** The counters after [k] more requests. *)
Definition add_gets (k : nat) (c : Counters) : Counters :=
  {| gets := (k + gets c)%nat; sends := sends c; jobs := jobs c |}.

(** [requests.get(url)]: the next reply of the endpoint. *)
Definition requests_get (url : string) : M response :=
  fun env c =>
    let c' := add_gets 1 c in
    match http env (gets c) with
    | ConnectionFailed msg =>
        (Raised (Error "ConnectionError" msg), c', [EGet url])
    | Response code b =>
        (Returned {| status_code := code; body := b |}, c', [EGet url])
    end.

(** [response.raise_for_status()]: 4xx and 5xx raise [HTTPError]. *)
Definition raise_for_status (r : response) : M unit :=
  if (400 <=? status_code r) && (status_code r <? 600)
  then raise (HTTPError (status_code r))
  else ret tt.

(** [response.json()]. *)
Definition response_json (r : response) : M value :=
  match body r with
  | inl msg => raise (Error "JSONDecodeError" msg)
  | inr v => ret v
  end.

(** ** KlineFetcher *)

Record KlineFetcher := {
  symbol : string;
  interval : string;
  max_retries : Z;
  retry_after_seconds : Z
}.

(** [KlineFetcher()] with the defaults of [__init__]. *)
Definition default_fetcher : KlineFetcher :=
  {| symbol := "SOLUSDT"; interval := "60";
     max_retries := 3; retry_after_seconds := 60 |}.

Definition kline_url (self : KlineFetcher) : string :=
  ("https://api-testnet.bybit.com/v5/market/mark-price-kline?category=linear&symbol="
   ++ symbol self ++ "&interval=" ++ interval self)%string.

Definition rate_limit_line (self : KlineFetcher) : string :=
  ("Rate limit exceeded. Retrying after "
   ++ str_int (retry_after_seconds self) ++ " seconds.")%string.

Definition error_line (e : exn) : string :=
  ("An error occurred: " ++ str_exn e)%string.

Definition exhausted_line : string := "Max retries exceeded. Unable to fetch data.".

(** How one pass through the [while] body ends: with [return data["result"]]
    or back at the loop test with a new value of [retries]. *)
Inductive pass :=
| Done (result : value)
| Again (retries : Z).

(** The [try] block of the loop body. *)
Definition attempt (self : KlineFetcher) : M value :=
  response <- requests_get (kline_url self) ;;
  raise_for_status response ;;
  data <- response_json response ;;
  lift (getitem data "result").

(** The loop body: the [try] block with its two handlers. *)
Definition loop_body (self : KlineFetcher) (retries : Z) : M pass :=
  try_except
    (result <- attempt self ;; ret (Done result))
    (fun e =>
       match e with
       | HTTPError status =>
           if status =? 429 then
             print (rate_limit_line self) ;;
             time_sleep (retry_after_seconds self) ;;
             ret (Again (retries + 1))
           else raise e
       | _ =>
           print (error_line e) ;;
           ret (Again (retries + 1))
       end).

(** [while retries < self.max_retries: ...] followed by the final
    [print] and [return None]; [fuel] bounds the number of loop tests. *)
Fixpoint fetch_loop (fuel : nat) (self : KlineFetcher) (retries : Z) : M value :=
  match fuel with
  | O => fun _ c => (OutOfFuel, c, [])
  | S fuel' =>
      if retries <? max_retries self then
        p <- loop_body self retries ;;
        match p with
        | Done result => ret result
        | Again retries' => fetch_loop fuel' self retries'
        end
      else
        print exhausted_line ;;
        ret VNone
  end.

(** [fetch_klines]: the loop tests its condition at most
    [max_retries + 1] times, which is the fuel it is given. *)
Definition fetch_klines (self : KlineFetcher) : M value :=
  fetch_loop (S (Z.to_nat (max_retries self))) self 0.

(** ** RsiCalculator *)

(** The indicator library as [calculate_rsi] calls it; pandas and stockstats
    are not part of the repository, so their behaviour is a parameter.  Each
    call may raise. *)
Record Library := {
  (** the data frame object *)
  frame : Type;
  (** [pd.DataFrame(rows, columns=[...])] *)
  DataFrame : value -> list string -> exn + frame;
  (** [df["close"] = df["close"].astype(float)] *)
  close_astype_float : frame -> exn + frame;
  (** [Sdf.retype(df)], [stock_df.get("rsi_14")], [stock_df["rsi_14"]]:
      the computed indicator sequence, one value per row *)
  rsi_14 : frame -> exn + list spec_float
}.

Definition kline_columns : list string :=
  ["timestamp"; "open"; "high"; "low"; "close"].

(** [series.iloc[-1]]: the last row, [IndexError] on an empty sequence. *)
Definition iloc_last (column : list spec_float) : exn + spec_float :=
  match column with
  | [] => inl (Error "IndexError" "single positional indexer is out-of-bounds")
  | x :: rest => inr (last rest x)
  end.

Definition rsi_line (rsi : Z) : string := ("RSI value: " ++ str_int rsi)%string.

Definition calculate_rsi_failed_line (e : exn) : string :=
  ("An exception occurred in calculate_rsi: " ++ str_exn e)%string.

(** The body of the [try] block of [calculate_rsi]. *)
Definition calculate_rsi_body (lib : Library) (klines : value) : M (option Z) :=
  has_list <- lift (contains klines "list") ;;
  if has_list : bool then
    klines_list <- lift (getitem klines "list") ;;
    if truthy klines_list then
      df <- lift (DataFrame lib klines_list kline_columns) ;;
      df <- lift (close_astype_float lib df) ;;
      column <- lift (rsi_14 lib df) ;;
      rsi_value <- lift (iloc_last column) ;;
      rounded_rsi_value <- lift (int_of_float rsi_value) ;;
      print (rsi_line rounded_rsi_value) ;;
      ret (Some rounded_rsi_value)
    else
      print "Empty 'list' found in klines" ;;
      ret None
  else
    print "Invalid klines data format" ;;
    ret None.

(** [calculate_rsi]: the body under [except Exception], which prints and
    returns [None]. *)
Definition calculate_rsi (lib : Library) (klines : value) : M (option Z) :=
  try_except (calculate_rsi_body lib klines)
    (fun e => print (calculate_rsi_failed_line e) ;; ret None).

(** ** Notifier *)

Record Notifier := { channel_id : Z }.

(** [send_rsi_alert]: [get_channel] gives [None] for an unknown channel, on
    which [.send] is an [AttributeError]; otherwise [channel.send(message)]
    is called, and may fail. *)
Definition send_rsi_alert (self : Notifier) (message : string) : M unit :=
  fun env c =>
    if get_channel env (channel_id self) then
      let c' := {| gets := gets c; sends := S (sends c); jobs := jobs c |} in
      match delivery env (sends c) with
      | Some e => (Raised e, c', [ESend (channel_id self) message])
      | None => (Returned tt, c', [ESend (channel_id self) message])
      end
    else
      (Raised (Error "AttributeError" "'NoneType' object has no attribute 'send'"),
       c, []).

(** ** DiscordBot *)

(** The three roles a bot is built from, each with its one abstract method. *)
Definition AbstractKlineFetcher : Type := M value.
Definition AbstractRsiCalculator : Type := value -> M (option Z).
Definition AbstractNotifier : Type := string -> M unit.

Record DiscordBot := {
  fetcher : AbstractKlineFetcher;
  calculator : AbstractRsiCalculator;
  notifier : AbstractNotifier
}.

Definition overbought_message (rsi : Z) : string :=
  ("RSI is overbought at " ++ str_int rsi)%string.

Definition oversold_message (rsi : Z) : string :=
  ("RSI is oversold at " ++ str_int rsi)%string.

(** The threshold part of the cycle, once an RSI is there. *)
Definition alert_on (self : DiscordBot) (rsi : Z) : M unit :=
  if rsi >? 70 then notifier self (overbought_message rsi)
  else if rsi <? 30 then notifier self (oversold_message rsi)
  else ret tt.

Definition check_rsi_and_notify (self : DiscordBot) : M unit :=
  emit (ECall "check_rsi_and_notify") ;;
  klines <- fetcher self ;;
  if is_not_none klines then
    rsi <- calculator self klines ;;
    match rsi with
    | Some rsi => alert_on self rsi
    | None => print "Failed to calculate RSI"
    end
  else
    print "Failed to fetch klines data".

(** [scheduler.add_job(self.check_rsi_and_notify, "cron", minute=0)] and
    [scheduler.start()] on a fresh scheduler. *)
Definition hourly_job : Job :=
  {| func := "check_rsi_and_notify"; trigger := "cron"; minute := 0 |}.

Definition periodic_rsi_check : M unit :=
  fun _ c =>
    (Returned tt,
     {| gets := gets c; sends := sends c; jobs := jobs c ++ [hourly_job] |},
     []).

(** [on_ready]: log in line, one cycle, then the task that arms the job. *)
Definition on_ready (self : DiscordBot) (user : string) : M unit :=
  print ("Logged in as " ++ user)%string ;;
  check_rsi_and_notify self ;;
  periodic_rsi_check.

(** The bot assembled as in [__main__], around a given fetcher. *)
Definition make_bot (lib : Library) (f : KlineFetcher) (n : Notifier) : DiscordBot :=
  {| fetcher := fetch_klines f;
     calculator := calculate_rsi lib;
     notifier := send_rsi_alert n |}.

(** ** The clock *)

(** Modelled from the spec: the trigger of a "cron" job given only a minute
    matches the wall-clock times [t] (in seconds) whose minute field is that
    minute and whose second field is 0, in every hour. *)
Definition cron_fires (j : Job) (t : Z) : bool :=
  (t mod 60 =? 0) && ((t / 60) mod 60 =? minute j).

(** ** Reading a trace *)

Definition start : Counters := {| gets := 0; sends := 0; jobs := [] |}.

Definition is_get (e : event) : bool :=
  match e with EGet _ => true | _ => false end.

Definition requests_in (t : list event) : nat := List.length (filter is_get t).

Definition sleeps_in (t : list event) : list Z :=
  flat_map (fun e => match e with ESleep d => [d] | _ => [] end) t.

Definition sent_in (t : list event) : list string :=
  flat_map (fun e => match e with ESend _ m => [m] | _ => [] end) t.

Definition cycles_in (t : list event) : nat :=
  List.length
    (filter (fun e => match e with ECall _ => true | _ => false end) t).

Definition result_of {A} (r : outcome A * Counters * list event) : outcome A :=
  fst (fst r).

Definition counters_of {A} (r : outcome A * Counters * list event) : Counters :=
  snd (fst r).

Definition trace_of {A} (r : outcome A * Counters * list event) : list event :=
  snd r.

(** ** Environments used in examples *)

Definition always_429 : nat -> http_reply :=
  fun _ => Response 429 (inl "Too Many Requests").

Definition env_of (h : nat -> http_reply) : Env :=
  {| http := h; get_channel := fun _ => true; delivery := fun _ => None |}.

(** The endpoint that gives the listed replies in order, then [after]. *)
Definition replies (l : list http_reply) (after : http_reply) : nat -> http_reply :=
  fun i => nth i l after.

(** A well-formed answer of the endpoint carrying [result]. *)
Definition ok_reply (result : value) : http_reply :=
  Response 200 (inr (VDict [("retCode", VInt 0); ("result", result)])).

(** The library calls of [calculate_rsi] in a row: frame, float closes,
    indicator sequence. *)
Definition indicator (lib : Library) (rows : value) : exn + list spec_float :=
  match DataFrame lib rows kline_columns with
  | inl e => inl e
  | inr df =>
      match close_astype_float lib df with
      | inl e => inl e
      | inr df' => rsi_14 lib df'
      end
  end.

(** ... followed by the last row and its conversion to [int]. *)
Definition last_rsi (lib : Library) (rows : value) : exn + Z :=
  match indicator lib rows with
  | inl e => inl e
  | inr column =>
      match iloc_last column with
      | inl e => inl e
      | inr rsi_value => int_of_float rsi_value
      end
  end.

(** [r] is the float [x] cut off toward zero: [x] is [+-m * 2^e], and
    [|r| <= |x| < |r| + 1] with the sign of [x], compared after scaling both
    sides to integers. *)
Definition truncation_of (x : spec_float) (r : Z) : Prop :=
  match x with
  | S754_zero _ => r = 0
  | S754_finite s m e =>
      (if s then r <= 0 else 0 <= r)
      /\ Z.abs r * 2 ^ Z.max 0 (- e) <= Z.pos m * 2 ^ Z.max 0 e
         < (Z.abs r + 1) * 2 ^ Z.max 0 (- e)
  | _ => False
  end.

(** The binary64 number written 70.9. *)
Definition float_70_9 : spec_float := S754_finite false 4989143962196378 (-46).

(** ** A reference library *)

(** An instance of [Library] to run the calculator on concrete series: rows
    given as dicts (a missing key is NaN in its cell) or as positional lists
    of five cells, closes converted as [float] converts them, and the
    14-period indicator with exponentially weighted smoothing, all in
    binary64 arithmetic. *)
Module Reference.

Definition prec : Z := 53.
Definition emax : Z := 1024.

Definition add := SFadd prec emax.
Definition sub := SFsub prec emax.
Definition mul := SFmul prec emax.
Definition div := SFdiv prec emax.
Definition of_Z (z : Z) : spec_float := binary_normalize prec emax z 0 false.

Definition is_nan (x : spec_float) : bool :=
  match x with S754_nan => true | _ => false end.

Definition digit_of (a : ascii) : option Z :=
  let n := Z.of_nat (nat_of_ascii a) in
  if (48 <=? n) && (n <=? 57) then Some (n - 48) else None.

(** White space that [float] strips from both ends of an ASCII string. *)
Definition is_space (a : ascii) : bool :=
  let n := Z.of_nat (nat_of_ascii a) in
  ((9 <=? n) && (n <=? 13)) || (n =? 32).

Fixpoint lstrip (s : string) : string :=
  match s with
  | String a rest => if is_space a then lstrip rest else s
  | EmptyString => s
  end.

Fixpoint rstrip (s : string) : string :=
  match s with
  | EmptyString => EmptyString
  | String a rest =>
      match rstrip rest with
      | EmptyString => if is_space a then EmptyString else String a EmptyString
      | rest' => String a rest'
      end
  end.

Definition lower (a : ascii) : ascii :=
  let n := nat_of_ascii a in
  if ((65 <=? n) && (n <=? 90))%nat then ascii_of_nat (n + 32) else a.

Fixpoint lowercase (s : string) : string :=
  match s with
  | EmptyString => EmptyString
  | String a rest => String (lower a) (lowercase rest)
  end.

Definition starts_with_digit (s : string) : bool :=
  match s with
  | String a _ => match digit_of a with Some _ => true | None => false end
  | EmptyString => false
  end.

(** The digits at the head of [s], with single underscores allowed between
    two digits: their value on top of [acc], how many digits there were, and
    the rest of the string. *)
Fixpoint digitpart (s : string) (after_digit : bool) (acc count : Z)
  : Z * Z * string :=
  match s with
  | EmptyString => (acc, count, s)
  | String a rest =>
      match digit_of a with
      | Some d => digitpart rest true (10 * acc + d) (count + 1)
      | None =>
          if after_digit && Ascii.eqb a "_"%char && starts_with_digit rest
          then digitpart rest false acc count
          else (acc, count, s)
      end
  end.

(** [ddd], [ddd.], [ddd.ddd] or [.ddd]: all digits as one integer, the
    number of fraction digits, and the rest of the string. *)
Definition mantissa (s : string) : option (Z * Z * string) :=
  let '(whole, n1, rest) := digitpart s false 0 0 in
  match rest with
  | String "."%char frac =>
      let '(all, n2, rest') := digitpart frac false whole 0 in
      if 0 <? n1 + n2 then Some (all, n2, rest') else None
  | _ => if 0 <? n1 then Some (whole, 0, rest) else None
  end.

Definition signed (s : string) : bool * string :=
  match s with
  | String "-"%char rest => (true, rest)
  | String "+"%char rest => (false, rest)
  | _ => (false, s)
  end.

(** What follows the mantissa: nothing, or [e] or [E], an optional sign and
    digits. *)
Definition exponent (s : string) : option Z :=
  match s with
  | EmptyString => Some 0
  | String a rest =>
      if Ascii.eqb (lower a) "e"%char then
        let '(negative, body) := signed rest in
        match digitpart body false 0 0 with
        | (e, n, EmptyString) =>
            if 0 <? n then Some (if negative then - e else e) else None
        | _ => None
        end
      else None
  end.

(** The binary64 number nearest to [m * 10 ^ p], for [m] not negative. *)
Definition decimal (m p : Z) : spec_float :=
  match m with
  | Z.pos m' =>
      if 0 <=? p then of_Z (m * 10 ^ p)
      else div (S754_finite false m' 0)
               (S754_finite false (Z.to_pos (10 ^ (- p))) 0)
  | _ => S754_zero false
  end.

(** [float(s)] on a string of ASCII characters: white space around, a sign,
    [inf], [infinity] or [nan] in any case, or a decimal with an optional
    exponent; [None] where [float] raises [ValueError]. *)
Definition float_of_string (s : string) : option spec_float :=
  let '(negative, body) := signed (rstrip (lstrip s)) in
  let word := lowercase body in
  if String.eqb word "inf" || String.eqb word "infinity" then
    Some (S754_infinity negative)
  else if String.eqb word "nan" then Some S754_nan
  else
    match mantissa body with
    | Some (m, k, rest) =>
        match exponent rest with
        | Some e =>
            let x := decimal m (e - k) in
            Some (if negative then SFopp x else x)
        | None => None
        end
    | None => None
    end.

(** One cell of a row given as a dict: the value at the column, NaN when
    the key is missing. *)
Definition dict_cell (items : list (string * value)) (column : string) : value :=
  match dict_get items column with
  | Some v => v
  | None => VFloat S754_nan
  end.

(** A data frame: its rows, one cell per column. *)
Definition rows_of (columns : list string) (data : list value)
  : exn + list (list value) :=
  fold_right
    (fun row acc =>
       match acc, row with
       | inl e, _ => inl e
       | inr rows, VDict items =>
           inr (map (dict_cell items) columns :: rows)
       | inr rows, VList cells =>
           if Nat.eqb (List.length cells) (List.length columns)
           then inr (cells :: rows)
           else inl (Error "ValueError" "columns passed do not match the data")
       | inr _, _ =>
           inl (Error "ValueError" "DataFrame constructor not properly called!")
       end)
    (inr []) data.

Definition data_frame (data : value) (columns : list string)
  : exn + list (list value) :=
  match data with
  | VList rows => rows_of columns rows
  | _ => inl (Error "ValueError" "DataFrame constructor not properly called!")
  end.

(** [astype(float)] on one cell. *)
Definition cell_as_float (v : value) : exn + value :=
  match v with
  | VNone => inr (VFloat S754_nan)
  | VBool b => inr (VFloat (of_Z (if b then 1 else 0)))
  | VInt z =>
      match of_Z z with
      | S754_infinity _ =>
          inl (Error "OverflowError" "int too large to convert to float")
      | x => inr (VFloat x)
      end
  | VFloat f => inr (VFloat f)
  | VStr s =>
      match float_of_string s with
      | Some f => inr (VFloat f)
      | None =>
          inl (Error "ValueError"
                 ("could not convert string to float: '" ++ s ++ "'")%string)
      end
  | _ => inl (Error "TypeError" "float() argument must be a string or a real number")
  end.

(** The close column is the fifth cell of a row. *)
Definition row_close_as_float (row : list value) : exn + list value :=
  match row with
  | [t; o; h; l; c] =>
      match cell_as_float c with
      | inr c' => inr [t; o; h; l; c']
      | inl e => inl e
      end
  | _ => inl (Error "KeyError" "'close'")
  end.

Fixpoint close_as_float (rows : list (list value)) : exn + list (list value) :=
  match rows with
  | [] => inr []
  | row :: rest =>
      match row_close_as_float row, close_as_float rest with
      | inr row', inr rest' => inr (row' :: rest')
      | inl e, _ => inl e
      | _, inl e => inl e
      end
  end.

Definition close_of (row : list value) : spec_float :=
  match row with
  | [_; _; _; _; VFloat c] => c
  | _ => S754_nan
  end.

(** Change from the previous close, 0 on the first row. *)
Fixpoint deltas (previous : option spec_float) (closes : list spec_float)
  : list spec_float :=
  match closes with
  | [] => []
  | c :: rest =>
      match previous with
      | None => of_Z 0 :: deltas (Some c) rest
      | Some p => sub c p :: deltas (Some c) rest
      end
  end.

Definition gain (d : spec_float) : spec_float :=
  div (add d (SFabs d)) (of_Z 2).

Definition loss (d : spec_float) : spec_float :=
  div (add (SFopp d) (SFabs d)) (of_Z 2).

(** Smoothing factor of a window of 14: the weight kept by the past. *)
Definition old_wt_factor : spec_float :=
  let alpha0 := div (of_Z 1) (of_Z 14) in
  let com := div (sub (of_Z 1) alpha0) alpha0 in
  sub (of_Z 1) (div (of_Z 1) (add (of_Z 1) com)).

(** Running weighted mean: the average so far, the weight of the past, and
    the values still to come. *)
Fixpoint ewm (weighted old_wt : spec_float) (values : list spec_float)
  : list spec_float :=
  match values with
  | [] => []
  | cur :: rest =>
      if is_nan weighted then
        cur :: ewm cur old_wt rest
      else
        let old_wt' := mul old_wt old_wt_factor in
        if is_nan cur then weighted :: ewm weighted old_wt' rest
        else
          let weighted' :=
            if SFeqb weighted cur then weighted
            else div (add (mul old_wt' weighted) cur) (add old_wt' (of_Z 1)) in
          weighted' :: ewm weighted' (add old_wt' (of_Z 1)) rest
  end.

Definition smma (values : list spec_float) : list spec_float :=
  match values with
  | [] => []
  | first :: rest => first :: ewm first (of_Z 1) rest
  end.

(** [100 - 100 / (1 + rs)] with [rs] the ratio of smoothed gains to
    smoothed losses. *)
Definition rsi_of (p n : spec_float) : spec_float :=
  sub (of_Z 100) (div (of_Z 100) (add (of_Z 1) (div p n))).

Fixpoint zip_with (f : spec_float -> spec_float -> spec_float)
  (xs ys : list spec_float) : list spec_float :=
  match xs, ys with
  | x :: xs', y :: ys' => f x y :: zip_with f xs' ys'
  | _, _ => []
  end.

Definition rsi_column (rows : list (list value)) : exn + list spec_float :=
  let d := deltas None (map close_of rows) in
  inr (zip_with rsi_of (smma (map gain d)) (smma (map loss d))).

Definition library : Library :=
  {| frame := list (list value);
     DataFrame := data_frame;
     close_astype_float := close_as_float;
     rsi_14 := rsi_column |}.

End Reference.

(** A test double of the library that accepts any rows and yields a canned
    indicator sequence. *)
Definition canned_library (column : list spec_float) : Library :=
  {| frame := unit;
     DataFrame := fun _ _ => inr tt;
     close_astype_float := fun df => inr df;
     rsi_14 := fun _ => inr column |}.

(** A candle as the tests write it. *)
Definition candle (timestamp open high low close : string) : value :=
  VDict [("timestamp", VStr timestamp); ("open", VStr open);
         ("high", VStr high); ("low", VStr low); ("close", VStr close)].

(** The payload of [test_calculate_rsi_success]. *)
Definition test_klines : value :=
  VDict [("list",
          VList [candle "2024-06-23T12:00:00Z" "100" "110" "90" "105";
                 candle "2024-06-23T13:00:00Z" "105" "115" "95" "110"])].

(** The test payload with the "open" field of its second candle left out. *)
Definition klines_missing_open : value :=
  VDict [("list",
          VList [candle "2024-06-23T12:00:00Z" "100" "110" "90" "105";
                 VDict [("timestamp", VStr "2024-06-23T13:00:00Z");
                        ("high", VStr "115"); ("low", VStr "95");
                        ("close", VStr "110")]])].

(** Sixteen hourly candles that differ in their close only. *)
Definition sample_klines : value :=
  VDict [("list",
          VList (map (fun close => candle "2024-06-23T12:00:00Z" close close close close)
                   ["100"; "102"; "101"; "105"; "107"; "106"; "110"; "111";
                    "109"; "108"; "112"; "115"; "114"; "116"; "118"; "117"]))].

(** An endpoint that is down with a server error on every request. *)
Definition server_error_env : Env :=
  env_of (replies [] (Response 500 (inl "Internal Server Error"))).

(** An endpoint that always answers with the given result. *)
Definition steady_env (result : value) : Env :=
  env_of (replies [] (ok_reply result)).

Definition alerts_channel : Notifier := {| channel_id := 1 |}.

(** A bot of the three concrete parts: the default fetcher, the calculator
    on the reference library, the notifier of channel 1. *)
Definition main_bot : DiscordBot :=
  make_bot Reference.library default_fetcher alerts_channel.

(** The bot with a calculator whose library is canned to end in [x]. *)
Definition canned_bot (x : Z) : DiscordBot :=
  make_bot (canned_library [Reference.of_Z x]) default_fetcher alerts_channel.

(** Events a fetch can leave: requests, printed lines, sleeps. *)
Definition fetch_event (e : event) : Prop :=
  match e with
  | EGet _ | EPrint _ | ESleep _ => True
  | _ => False
  end.

(** What a fetch of [self] may leave in its trace: requests to its own URL,
    printed lines, and sleeps of its own, valid, length. *)
Definition fetch_event_of (self : KlineFetcher) (e : event) : Prop :=
  match e with
  | EGet url => url = kline_url self
  | ESleep seconds => seconds = retry_after_seconds self /\ 0 <= seconds
  | EPrint _ => True
  | _ => False
  end.

(** A chat platform that does not know the channel. *)
Definition unknown_channel_env (h : nat -> http_reply) : Env :=
  {| http := h; get_channel := fun _ => false; delivery := fun _ => None |}.

(** A chat platform on which every delivery fails with [e]. *)
Definition failing_delivery_env (h : nat -> http_reply) (e : exn) : Env :=
  {| http := h; get_channel := fun _ => true; delivery := fun _ => Some e |}.

(** * Properties *)

(** ** The retry loop *)

(** What a reply means to the loop body. *)
Inductive verdict :=
| Success (result : value)
| RateLimited
| HttpFailure (status : Z)
| Transient (cls msg : string).

Definition classify (r : http_reply) : verdict :=
  match r with
  | ConnectionFailed msg => Transient "ConnectionError" msg
  | Response s b =>
      if (400 <=? s) && (s <? 600) then
        if s =? 429 then RateLimited else HttpFailure s
      else
        match b with
        | inl msg => Transient "JSONDecodeError" msg
        | inr data =>
            match getitem data "result" with
            | inr v => Success v
            | inl (Error cls msg) => Transient cls msg
            | inl (HTTPError s') => HttpFailure s'
            end
        end
  end.

Definition retryable (v : verdict) : bool :=
  match v with
  | RateLimited | Transient _ _ => true
  | _ => false
  end.

Definition rate_limited (v : verdict) : bool :=
  match v with RateLimited => true | _ => false end.

(** The events of one pass that goes round again. *)
Definition round_trace (self : KlineFetcher) (v : verdict) : list event :=
  EGet (kline_url self) ::
  match v with
  | RateLimited =>
      [EPrint (rate_limit_line self); ESleep (retry_after_seconds self)]
  | Transient cls msg => [EPrint (error_line (Error cls msg))]
  | _ => []
  end.

(** The events of [k] passes, the first of which is request number [i]. *)
Fixpoint rounds_trace (self : KlineFetcher) (env : Env) (i : nat) (k : nat)
  : list event :=
  match k with
  | O => []
  | S k' =>
      round_trace self (classify (http env i)) ++ rounds_trace self env (S i) k'
  end.

(** How many of the [k] replies from number [i] on are rate limits. *)
Fixpoint rate_limits (env : Env) (i : nat) (k : nat) : nat :=
  match k with
  | O => O
  | S k' =>
      ((if rate_limited (classify (http env i)) then 1 else 0)
       + rate_limits env (S i) k')%nat
  end.

Lemma getitem_error (data : value) (key : string) (e : exn) :
  getitem data key = inl e -> exists cls msg, e = Error cls msg.
Proof.
  destruct data; simpl; intros H;
    try (injection H as <-; eauto; fail).
  destruct (dict_get items key); [discriminate|].
  injection H as <-; eauto.
Qed.

Lemma add_gets_add (j k : nat) (c : Counters) :
  add_gets j (add_gets k c) = add_gets (j + k) c.
Proof.
  unfold add_gets; simpl. f_equal. lia.
Qed.

Lemma add_gets_0 (c : Counters) : add_gets 0 c = c.
Proof. destruct c; reflexivity. Qed.

(** The monad laws, pointwise. *)
Lemma ret_bind {A B} (a : A) (k : A -> M B) (env : Env) (c : Counters) :
  bind (ret a) k env c = k a env c.
Proof.
  unfold bind, ret. destruct (k a env c) as [[r c'] t]. reflexivity.
Qed.

Lemma bind_ret {A} (m : M A) (env : Env) (c : Counters) :
  bind m ret env c = m env c.
Proof.
  unfold bind, ret. destruct (m env c) as [[[a | e |] c'] t];
    rewrite ?app_nil_r; reflexivity.
Qed.

Lemma bind_bind {A B C} (m : M A) (k : A -> M B) (h : B -> M C)
  (env : Env) (c : Counters) :
  bind (bind m k) h env c = bind m (fun a => bind (k a) h) env c.
Proof.
  unfold bind. destruct (m env c) as [[[a | e |] c1] t1]; try reflexivity.
  destruct (k a env c1) as [[[b | e |] c2] t2]; try reflexivity.
  destruct (h b env c2) as [[r c3] t3]. rewrite app_assoc. reflexivity.
Qed.

(** One pass through the loop body, by the verdict on the reply it gets. *)
Lemma loop_body_spec (self : KlineFetcher) (retries : Z) (env : Env) (c : Counters) :
  loop_body self retries env c =
  match classify (http env (gets c)) with
  | Success v => (Returned (Done v), add_gets 1 c, [EGet (kline_url self)])
  | RateLimited =>
      if retry_after_seconds self <? 0 then
        (Raised (Error "ValueError" "sleep length must be non-negative"),
         add_gets 1 c,
         [EGet (kline_url self); EPrint (rate_limit_line self)])
      else
        (Returned (Again (retries + 1)), add_gets 1 c,
         round_trace self RateLimited)
  | HttpFailure s =>
      (Raised (HTTPError s), add_gets 1 c, [EGet (kline_url self)])
  | Transient cls msg =>
      (Returned (Again (retries + 1)), add_gets 1 c,
       round_trace self (Transient cls msg))
  end.
Proof.
  unfold loop_body, try_except, attempt, bind, requests_get, classify.
  destruct (http env (gets c)) as [msg | s b]; simpl.
  - reflexivity.
  - unfold raise_for_status; simpl.
    destruct ((400 <=? s) && (s <? 600)) eqn:Hs; simpl.
    + destruct (s =? 429) eqn:H429; simpl; [|reflexivity].
      unfold time_sleep.
      destruct (retry_after_seconds self <? 0); reflexivity.
    + unfold response_json; simpl.
      destruct b as [msg | data]; simpl; [reflexivity|].
      destruct (getitem data "result") as [e | v] eqn:Hg; simpl.
      * destruct (getitem_error _ _ _ Hg) as (cls & msg & ->). reflexivity.
      * reflexivity.
Qed.

(** The loop, unfolded once. *)
Lemma fetch_loop_unfold (fuel : nat) (self : KlineFetcher) (retries : Z) :
  fetch_loop (S fuel) self retries =
  if retries <? max_retries self then
    bind (loop_body self retries)
      (fun p => match p with
                | Done result => ret result
                | Again retries' => fetch_loop fuel self retries'
                end)
  else bind (print exhausted_line) (fun _ => ret VNone).
Proof. reflexivity. Qed.

Lemma fetch_loop_exhausted (fuel : nat) (self : KlineFetcher) (retries : Z)
  (env : Env) (c : Counters) :
  max_retries self <= retries ->
  fetch_loop (S fuel) self retries env c =
  (Returned VNone, c, [EPrint exhausted_line]).
Proof.
  intros H. rewrite fetch_loop_unfold.
  destruct (Z.ltb_spec retries (max_retries self)); [lia|reflexivity].
Qed.

Section RetryLoop.

Variable self : KlineFetcher.
Variable env : Env.

(** [k] passes that all go round again lead to the loop test with
    [retries + k], whatever mix of rate limits and other errors they met. *)
Lemma fetch_loop_rounds :
  0 <= retry_after_seconds self ->
  forall (k fuel : nat) (retries : Z) (c : Counters),
  retries + Z.of_nat k <= max_retries self ->
  (forall i, (i < k)%nat -> retryable (classify (http env (gets c + i))) = true) ->
  fetch_loop (k + fuel) self retries env c =
  let '(r, c', t) :=
    fetch_loop fuel self (retries + Z.of_nat k) env (add_gets k c) in
  (r, c', rounds_trace self env (gets c) k ++ t).
Proof.
  intros Hd. induction k as [|k IH]; intros fuel retries c Hle Hall.
  - simpl. rewrite Z.add_0_r, add_gets_0.
    destruct (fetch_loop fuel self retries env c) as [[r c'] t]. reflexivity.
  - replace (S k + fuel)%nat with (S (k + fuel)) by lia.
    rewrite fetch_loop_unfold.
    destruct (Z.ltb_spec retries (max_retries self)); [|lia].
    unfold bind at 1. rewrite loop_body_spec.
    pose proof (Hall 0%nat ltac:(lia)) as H0.
    rewrite Nat.add_0_r in H0.
    assert (Hnext :
      fetch_loop (k + fuel) self (retries + 1) env (add_gets 1 c) =
      let '(r, c', t) :=
        fetch_loop fuel self (retries + Z.of_nat (S k)) env (add_gets (S k) c) in
      (r, c', rounds_trace self env (S (gets c)) k ++ t)).
    { rewrite IH.
      - rewrite add_gets_add.
        replace (retries + 1 + Z.of_nat k) with (retries + Z.of_nat (S k)) by lia.
        replace (k + 1)%nat with (S k) by lia. reflexivity.
      - lia.
      - intros i Hi. simpl.
        replace (S (gets c + i)) with (gets c + S i)%nat by lia.
        apply Hall. lia. }
    destruct (classify (http env (gets c))) eqn:Hv; simpl in H0; try discriminate.
    + destruct (Z.ltb_spec (retry_after_seconds self) 0); [lia|].
      rewrite Hnext.
      destruct (fetch_loop fuel self (retries + Z.of_nat (S k)) env
                  (add_gets (S k) c)) as [[r c'] t].
      simpl. rewrite Hv. reflexivity.
    + rewrite Hnext.
      destruct (fetch_loop fuel self (retries + Z.of_nat (S k)) env
                  (add_gets (S k) c)) as [[r c'] t].
      simpl. rewrite Hv. reflexivity.
Qed.

Lemma requests_in_app (t1 t2 : list event) :
  requests_in (t1 ++ t2) = (requests_in t1 + requests_in t2)%nat.
Proof.
  unfold requests_in. rewrite filter_app, length_app. reflexivity.
Qed.

Lemma sleeps_in_app (t1 t2 : list event) :
  sleeps_in (t1 ++ t2) = sleeps_in t1 ++ sleeps_in t2.
Proof. unfold sleeps_in. apply flat_map_app. Qed.

Lemma requests_in_rounds (k i : nat) :
  requests_in (rounds_trace self env i k) = k.
Proof.
  revert i. induction k as [|k IH]; intros i; simpl; [reflexivity|].
  change (requests_in
            (EGet (kline_url self)
             :: (match classify (http env i) with
                 | RateLimited =>
                     [EPrint (rate_limit_line self);
                      ESleep (retry_after_seconds self)]
                 | Transient cls msg => [EPrint (error_line (Error cls msg))]
                 | _ => []
                 end ++ rounds_trace self env (S i) k)) = S k).
  rewrite <- (IH (S i)) at 2.
  unfold requests_in at 1. simpl. f_equal.
  fold (requests_in
          (match classify (http env i) with
           | RateLimited =>
               [EPrint (rate_limit_line self);
                ESleep (retry_after_seconds self)]
           | Transient cls msg => [EPrint (error_line (Error cls msg))]
           | _ => []
           end ++ rounds_trace self env (S i) k)).
  rewrite requests_in_app.
  destruct (classify (http env i)); reflexivity.
Qed.

Lemma sleeps_in_rounds (k i : nat) :
  sleeps_in (rounds_trace self env i k) =
  repeat (retry_after_seconds self) (rate_limits env i k).
Proof.
  revert i. induction k as [|k IH]; intros i; simpl; [reflexivity|].
  rewrite sleeps_in_app, IH.
  destruct (classify (http env i)); reflexivity.
Qed.

(** A reply with status 429 is a rate limit, whatever its body. *)
Lemma classify_429 (b : string + value) : classify (Response 429 b) = RateLimited.
Proof. reflexivity. Qed.

(** A 4xx or 5xx status other than 429 is an HTTP failure. *)
Lemma classify_http_error (s : Z) (b : string + value) :
  400 <= s < 600 -> s <> 429 -> classify (Response s b) = HttpFailure s.
Proof.
  intros [Hlo Hhi] Hne. unfold classify.
  apply Z.leb_le in Hlo. apply Z.ltb_lt in Hhi. rewrite Hlo, Hhi. simpl.
  apply Z.eqb_neq in Hne. rewrite Hne. reflexivity.
Qed.

(** An HTTP failure only comes from a 4xx or 5xx status other than 429. *)
Lemma classify_http_failure (r : http_reply) (s : Z) :
  classify r = HttpFailure s ->
  exists b, r = Response s b /\ 400 <= s < 600 /\ s <> 429.
Proof.
  destruct r as [msg | s0 b]; simpl; [discriminate|].
  destruct ((400 <=? s0) && (s0 <? 600)) eqn:Hs.
  - destruct (Z.eqb_spec s0 429); [discriminate|].
    intros H; injection H as <-.
    apply andb_true_iff in Hs. destruct Hs as [Hlo Hhi].
    apply Z.leb_le in Hlo. apply Z.ltb_lt in Hhi. eauto.
  - destruct b as [msg | data]; [discriminate|].
    destruct (getitem data "result") as [e | v] eqn:Hg; [|discriminate].
    destruct (getitem_error _ _ _ Hg) as (cls & msg & ->). discriminate.
Qed.

Lemma rounds_trace_429 :
  (forall i, exists b, http env i = Response 429 b) ->
  forall k i,
  rounds_trace self env i k =
  List.concat (repeat [EGet (kline_url self); EPrint (rate_limit_line self);
                  ESleep (retry_after_seconds self)] k)
  /\ rate_limits env i k = k.
Proof.
  intros H. induction k as [|k IH]; intros i; simpl; [split; reflexivity|].
  destruct (H i) as [b ->]. rewrite classify_429.
  destruct (IH (S i)) as [-> ->]. split; reflexivity.
Qed.

(** With enough fuel the loop ends: it returns, or raises the HTTP failure
    it met, or the error of a negative sleep length. *)
Lemma fetch_loop_outcome :
  forall (k fuel : nat) (retries : Z) (c : Counters),
  max_retries self - retries <= Z.of_nat k -> (k < fuel)%nat ->
  match result_of (fetch_loop fuel self retries env c) with
  | Returned _ => True
  | Raised (HTTPError s) => exists i, classify (http env i) = HttpFailure s
  | Raised (Error cls _) =>
      cls = "ValueError" /\ retry_after_seconds self < 0
      /\ exists i, classify (http env i) = RateLimited
  | OutOfFuel => False
  end.
Proof.
  induction k as [|k IH]; intros fuel retries c Hk Hfuel.
  - destruct fuel as [|fuel]; [lia|].
    rewrite fetch_loop_exhausted by lia. exact I.
  - destruct fuel as [|fuel]; [lia|].
    rewrite fetch_loop_unfold.
    destruct (Z.ltb_spec retries (max_retries self)); [|exact I].
    unfold bind at 1. rewrite loop_body_spec.
    specialize (IH fuel (retries + 1) (add_gets 1 c) ltac:(lia) ltac:(lia)).
    destruct (classify (http env (gets c))) eqn:Hv.
    + exact I.
    + destruct (Z.ltb_spec (retry_after_seconds self) 0).
      * simpl. eauto.
      * destruct (fetch_loop fuel self (retries + 1) env (add_gets 1 c))
          as [[r c'] t]. exact IH.
    + simpl. eauto.
    + destruct (fetch_loop fuel self (retries + 1) env (add_gets 1 c))
        as [[r c'] t]. exact IH.
Qed.

(** [fetch_klines] always ends. *)
Lemma fetch_klines_terminates (c : Counters) :
  result_of (fetch_klines self env c) <> OutOfFuel.
Proof.
  pose proof (fetch_loop_outcome (Z.to_nat (max_retries self))
                (S (Z.to_nat (max_retries self))) 0 c ltac:(lia) ltac:(lia)) as H.
  fold (fetch_klines self) in H. intros E. rewrite E in H. exact H.
Qed.

(** Without a non-429 HTTP error in sight and with a valid sleep length,
    [fetch_klines] returns. *)
Lemma fetch_klines_returns (c : Counters) :
  0 <= retry_after_seconds self ->
  (forall i s, classify (http env i) <> HttpFailure s) ->
  exists v c' t, fetch_klines self env c = (Returned v, c', t).
Proof.
  intros Hd Hno.
  pose proof (fetch_loop_outcome (Z.to_nat (max_retries self))
                (S (Z.to_nat (max_retries self))) 0 c ltac:(lia) ltac:(lia)) as H.
  fold (fetch_klines self) in H.
  destruct (fetch_klines self env c) as [[r c'] t]. unfold result_of in H.
  simpl in H. destruct r as [v | [s | cls msg] |].
  - eauto.
  - destruct H as [i Hi]. destruct (Hno _ _ Hi).
  - lia.
  - contradiction.
Qed.

(** All of the first [max_retries] replies ask for another round: the loop
    makes exactly that many requests and gives up with [None]. *)
Lemma fetch_klines_gives_up (c : Counters) :
  0 <= max_retries self -> 0 <= retry_after_seconds self ->
  (forall i, (i < Z.to_nat (max_retries self))%nat ->
             retryable (classify (http env (gets c + i))) = true) ->
  fetch_klines self env c =
  (Returned VNone, add_gets (Z.to_nat (max_retries self)) c,
   rounds_trace self env (gets c) (Z.to_nat (max_retries self))
   ++ [EPrint exhausted_line]).
Proof.
  intros Hn Hd Hall. unfold fetch_klines.
  replace (S (Z.to_nat (max_retries self)))
    with (Z.to_nat (max_retries self) + 1)%nat by lia.
  rewrite fetch_loop_rounds; [|assumption|lia|assumption].
  rewrite fetch_loop_exhausted by lia. reflexivity.
Qed.

End RetryLoop.

(** Every run of the loop, with a valid sleep length: some rounds that go
    round again, and then a good answer, a non-429 HTTP error, or the end of
    the budget. *)
Lemma fetch_loop_run (f : KlineFetcher) (env : Env) :
  0 <= retry_after_seconds f ->
  forall (m fuel : nat) (retries : Z) (c : Counters),
  Z.to_nat (max_retries f - retries) = m ->
  (m < fuel)%nat ->
  exists k,
    (k <= m)%nat
    /\ (forall i, (i < k)%nat ->
                  retryable (classify (http env (gets c + i))) = true)
    /\ (((k < m)%nat
         /\ exists v,
              classify (http env (gets c + k)) = Success v
              /\ fetch_loop fuel f retries env c
                 = (Returned v, add_gets (S k) c,
                    rounds_trace f env (gets c) k ++ [EGet (kline_url f)]))
        \/ ((k < m)%nat
            /\ exists s,
                 classify (http env (gets c + k)) = HttpFailure s
                 /\ fetch_loop fuel f retries env c
                    = (Raised (HTTPError s), add_gets (S k) c,
                       rounds_trace f env (gets c) k ++ [EGet (kline_url f)]))
        \/ (k = m
            /\ fetch_loop fuel f retries env c
               = (Returned VNone, add_gets k c,
                  rounds_trace f env (gets c) k ++ [EPrint exhausted_line]))).
Proof.
  intros Hd. induction m as [|m IH]; intros fuel retries c Hm Hfuel.
  - destruct fuel as [|fuel]; [lia|].
    exists 0%nat. split; [lia|]. split; [intros i Hi; lia|].
    right. right. split; [reflexivity|].
    rewrite fetch_loop_exhausted by lia. rewrite add_gets_0. reflexivity.
  - destruct fuel as [|fuel]; [lia|].
    rewrite fetch_loop_unfold.
    destruct (Z.ltb_spec retries (max_retries f)); [|lia].
    unfold bind. rewrite loop_body_spec.
    assert (Hstep : forall v,
      classify (http env (gets c)) = v -> retryable v = true ->
      exists k,
        (k <= S m)%nat
        /\ (forall i, (i < k)%nat ->
                      retryable (classify (http env (gets c + i))) = true)
        /\ (((k < S m)%nat
             /\ exists v',
                  classify (http env (gets c + k)) = Success v'
                  /\ (let '(r, c', t) :=
                        fetch_loop fuel f (retries + 1) env (add_gets 1 c) in
                      (r, c', round_trace f v ++ t))
                     = (Returned v', add_gets (S k) c,
                        rounds_trace f env (gets c) k ++ [EGet (kline_url f)]))
            \/ ((k < S m)%nat
                /\ exists s,
                     classify (http env (gets c + k)) = HttpFailure s
                     /\ (let '(r, c', t) :=
                           fetch_loop fuel f (retries + 1) env (add_gets 1 c) in
                         (r, c', round_trace f v ++ t))
                        = (Raised (HTTPError s), add_gets (S k) c,
                           rounds_trace f env (gets c) k
                           ++ [EGet (kline_url f)]))
            \/ (k = S m
                /\ (let '(r, c', t) :=
                      fetch_loop fuel f (retries + 1) env (add_gets 1 c) in
                    (r, c', round_trace f v ++ t))
                   = (Returned VNone, add_gets k c,
                      rounds_trace f env (gets c) k
                      ++ [EPrint exhausted_line])))).
    { intros v Hv Hretry.
      destruct (IH fuel (retries + 1) (add_gets 1 c) ltac:(lia) ltac:(lia))
        as (k & Hk & Hall & Hcase).
      assert (Hshift : forall i,
                (gets (add_gets 1 c) + i = gets c + S i)%nat)
        by (intros i; simpl; lia).
      exists (S k). split; [lia|]. split.
      - intros [|i] Hi.
        + rewrite Nat.add_0_r, Hv. exact Hretry.
        + rewrite <- Hshift. apply Hall. lia.
      - cbn [rounds_trace]. rewrite Hv, <- !app_assoc.
        rewrite Hshift in Hcase.
        change (gets (add_gets 1 c)) with (S (gets c)) in Hcase.
        destruct Hcase as [(Hlt & v' & Hv' & ->)
                          | [(Hlt & s & Hs & ->) | (Hkm & ->)]];
          rewrite add_gets_add.
        + replace (S k + 1)%nat with (S (S k)) by lia.
          left. split; [lia|]. exists v'. split; [exact Hv'|reflexivity].
        + replace (S k + 1)%nat with (S (S k)) by lia.
          right. left. split; [lia|]. exists s. split; [exact Hs|reflexivity].
        + replace (k + 1)%nat with (S k) by lia.
          right. right. split; [lia|reflexivity]. }
    destruct (classify (http env (gets c))) as [v | | s | cls msg] eqn:Hv.
    + exists 0%nat. split; [lia|]. split; [intros i Hi; lia|].
      left. split; [lia|]. exists v. rewrite Nat.add_0_r.
      split; [exact Hv|reflexivity].
    + destruct (Z.ltb_spec (retry_after_seconds f) 0); [lia|].
      apply (Hstep RateLimited eq_refl eq_refl).
    + exists 0%nat. split; [lia|]. split; [intros i Hi; lia|].
      right. left. split; [lia|]. exists s. rewrite Nat.add_0_r.
      split; [exact Hv|reflexivity].
    + apply (Hstep (Transient cls msg) eq_refl eq_refl).
Qed.

(** The same of a whole call of [fetch_klines]. *)
Lemma fetch_klines_run (f : KlineFetcher) (env : Env) (c : Counters) :
  0 <= retry_after_seconds f ->
  exists k,
    (forall i, (i < k)%nat ->
               retryable (classify (http env (gets c + i))) = true)
    /\ ((Z.of_nat k < max_retries f
         /\ exists v,
              classify (http env (gets c + k)) = Success v
              /\ fetch_klines f env c
                 = (Returned v, add_gets (S k) c,
                    rounds_trace f env (gets c) k ++ [EGet (kline_url f)]))
        \/ (Z.of_nat k < max_retries f
            /\ exists s,
                 classify (http env (gets c + k)) = HttpFailure s
                 /\ fetch_klines f env c
                    = (Raised (HTTPError s), add_gets (S k) c,
                       rounds_trace f env (gets c) k ++ [EGet (kline_url f)]))
        \/ (k = Z.to_nat (max_retries f)
            /\ fetch_klines f env c
               = (Returned VNone, add_gets k c,
                  rounds_trace f env (gets c) k ++ [EPrint exhausted_line]))).
Proof.
  intros Hd.
  destruct (fetch_loop_run f env Hd (Z.to_nat (max_retries f))
              (S (Z.to_nat (max_retries f))) 0 c) as (k & Hk & Hall & Hcase).
  - f_equal. lia.
  - lia.
  - exists k. split; [exact Hall|].
    fold (fetch_klines f) in Hcase.
    destruct Hcase as [(Hlt & H) | [(Hlt & H) | (Heq & H)]].
    + left. split; [lia | exact H].
    + right. left. split; [lia | exact H].
    + right. right. split; assumption.
Qed.

(** ** Claims about the fetcher *)

(** C1. When every request is answered with status 429, [fetch_klines]
    makes exactly [max_retries] requests, sleeps [retry_after_seconds] after
    each of them (so between any two consecutive ones), and then returns
    [None] instead of raising. *)
Theorem fetch_klines_always_rate_limited
  (self : KlineFetcher) (env : Env) (c : Counters) :
  0 <= max_retries self ->
  0 <= retry_after_seconds self ->
  (forall i, exists b, http env i = Response 429 b) ->
  let run := fetch_klines self env c in
  result_of run = Returned VNone
  /\ trace_of run =
     List.concat
       (repeat [EGet (kline_url self); EPrint (rate_limit_line self);
                ESleep (retry_after_seconds self)]
          (Z.to_nat (max_retries self)))
     ++ [EPrint exhausted_line]
  /\ Z.of_nat (requests_in (trace_of run)) = max_retries self
  /\ sleeps_in (trace_of run) =
     repeat (retry_after_seconds self) (Z.to_nat (max_retries self)).
Proof.
  intros Hn Hd H429 run. subst run.
  rewrite fetch_klines_gives_up; try assumption.
  - unfold result_of, trace_of; simpl.
    destruct (rounds_trace_429 self env H429 (Z.to_nat (max_retries self)) (gets c))
      as [Ht Hr].
    split; [reflexivity|]. split; [rewrite Ht; reflexivity|]. split.
    + rewrite requests_in_app, requests_in_rounds.
      change (requests_in [EPrint exhausted_line]) with 0%nat. lia.
    + rewrite sleeps_in_app, sleeps_in_rounds, Hr. simpl.
      apply app_nil_r.
  - intros i _. destruct (H429 (gets c + i)%nat) as [b ->]. reflexivity.
Qed.

Lemma fetch_klines_always_rate_limited_witness :
  let run := fetch_klines default_fetcher (env_of always_429) start in
  result_of run = Returned VNone
  /\ Z.of_nat (requests_in (trace_of run)) = 3
  /\ sleeps_in (trace_of run) = [60; 60; 60].
Proof.
  destruct (fetch_klines_always_rate_limited default_fetcher
              (env_of always_429) start) as (Hr & _ & Hq & Hs).
  - simpl; lia.
  - simpl; lia.
  - intros i. eexists. reflexivity.
  - split; [exact Hr|]. split; [exact Hq|exact Hs].
Defined.

(** After [k] rounds that go round again, a non-429 HTTP error ends the
    run with the request that met it. *)
Lemma fetch_klines_raises_http_error
  (self : KlineFetcher) (env : Env) (c : Counters)
  (k : nat) (s : Z) (b : string + value) :
  0 <= retry_after_seconds self ->
  Z.of_nat k < max_retries self ->
  (forall i, (i < k)%nat -> retryable (classify (http env (gets c + i))) = true) ->
  http env (gets c + k) = Response s b ->
  400 <= s < 600 ->
  s <> 429 ->
  fetch_klines self env c =
  (Raised (HTTPError s), add_gets (S k) c,
   rounds_trace self env (gets c) k ++ [EGet (kline_url self)]).
Proof.
  intros Hd Hk Hall Hreply Hs Hne. unfold fetch_klines.
  replace (S (Z.to_nat (max_retries self)))
    with (k + S (Z.to_nat (max_retries self) - k))%nat by lia.
  rewrite fetch_loop_rounds; [|assumption|lia|assumption].
  rewrite fetch_loop_unfold.
  destruct (Z.ltb_spec (0 + Z.of_nat k) (max_retries self)); [|lia].
  unfold bind. rewrite loop_body_spec.
  replace (gets (add_gets k c)) with (gets c + k)%nat by (simpl; lia).
  rewrite Hreply, (classify_http_error s b Hs Hne).
  rewrite add_gets_add. reflexivity.
Qed.

(** C2. A reply with a 4xx or 5xx status other than 429 makes [fetch_klines]
    raise the [HTTPError] at once, however many retries are left: the failing
    request is the last event of the run, with no sleep and no request
    after it.  The same holds of the loop at any value of [retries] below
    [max_retries]. *)
Theorem fetch_klines_http_error_is_fatal
  (self : KlineFetcher) (env : Env) (c : Counters)
  (k : nat) (s : Z) (b : string + value) :
  0 <= retry_after_seconds self ->
  Z.of_nat k < max_retries self ->
  (forall i, (i < k)%nat -> retryable (classify (http env (gets c + i))) = true) ->
  http env (gets c + k) = Response s b ->
  400 <= s < 600 ->
  s <> 429 ->
  let run := fetch_klines self env c in
  run = (Raised (HTTPError s), add_gets (S k) c,
         rounds_trace self env (gets c) k ++ [EGet (kline_url self)])
  /\ requests_in (trace_of run) = S k
  /\ gets (counters_of run) = (S k + gets c)%nat
  /\ (forall (fuel : nat) (retries : Z) (c0 : Counters),
        retries < max_retries self ->
        http env (gets c0) = Response s b ->
        fetch_loop (S fuel) self retries env c0
        = (Raised (HTTPError s), add_gets 1 c0, [EGet (kline_url self)])).
Proof.
  intros Hd Hk Hall Hreply Hs Hne run. subst run.
  pose proof (fetch_klines_raises_http_error self env c k s b
                Hd Hk Hall Hreply Hs Hne) as E.
  rewrite E. split; [reflexivity|]. split; [|split].
  - unfold trace_of; simpl.
    rewrite requests_in_app, requests_in_rounds.
    change (requests_in [EGet (kline_url self)]) with 1%nat. lia.
  - reflexivity.
  - intros fuel retries c0 Hlt H0. rewrite fetch_loop_unfold.
    destruct (Z.ltb_spec retries (max_retries self)); [|lia].
    unfold bind. rewrite loop_body_spec, H0, (classify_http_error s b Hs Hne).
    reflexivity.
Qed.

Lemma fetch_klines_http_error_is_fatal_witness :
  fetch_klines default_fetcher
    (env_of (replies [Response 429 (inl "slow down")]
               (Response 500 (inl "Internal Server Error")))) start
  = (Raised (HTTPError 500), add_gets 2 start,
     [EGet (kline_url default_fetcher);
      EPrint (rate_limit_line default_fetcher); ESleep 60;
      EGet (kline_url default_fetcher)]).
Proof.
  apply (fetch_klines_http_error_is_fatal default_fetcher
           (env_of (replies [Response 429 (inl "slow down")]
                      (Response 500 (inl "Internal Server Error"))))
           start 1 500 (inl "Internal Server Error")).
  - simpl; lia.
  - simpl; lia.
  - intros i Hi. assert (i = 0%nat) as -> by lia. reflexivity.
  - reflexivity.
  - lia.
  - lia.
Defined.

(** C8. A pass that fails with anything but an [HTTPError] (a [Transient]
    verdict: the request itself fails, the body does not parse, the answer
    lacks "result") adds one to [retries] and goes straight back to the loop
    test, whatever the replies that follow: its only events are the request
    and the printed line, no sleep.  Such passes count against [max_retries]
    like rate limits do: when each of the first [max_retries] replies is a
    rate limit or such an error, the run makes exactly [max_retries]
    requests, sleeps once per rate limit only, and returns [None]. *)
Theorem transient_errors_retry_at_once
  (self : KlineFetcher) (env : Env) (c : Counters) :
  (forall (fuel : nat) (retries : Z) (c0 : Counters) (cls msg : string),
     retries < max_retries self ->
     classify (http env (gets c0)) = Transient cls msg ->
     loop_body self retries env c0 =
       (Returned (Again (retries + 1)), add_gets 1 c0,
        [EGet (kline_url self); EPrint (error_line (Error cls msg))])
     /\ fetch_loop (S fuel) self retries env c0 =
        let '(r, c', t) := fetch_loop fuel self (retries + 1) env (add_gets 1 c0) in
        (r, c',
         [EGet (kline_url self); EPrint (error_line (Error cls msg))] ++ t))
  /\ (0 <= max_retries self ->
      0 <= retry_after_seconds self ->
      (forall i, (i < Z.to_nat (max_retries self))%nat ->
                 retryable (classify (http env (gets c + i))) = true) ->
      let run := fetch_klines self env c in
      result_of run = Returned VNone
      /\ Z.of_nat (requests_in (trace_of run)) = max_retries self
      /\ sleeps_in (trace_of run) =
         repeat (retry_after_seconds self)
           (rate_limits env (gets c) (Z.to_nat (max_retries self))))
  /\ (forall msg, classify (ConnectionFailed msg) = Transient "ConnectionError" msg)
  /\ (forall msg, classify (Response 200 (inl msg)) = Transient "JSONDecodeError" msg)
  /\ classify (Response 200 (inr (VDict []))) = Transient "KeyError" "'result'".
Proof.
  split; [|split; [|repeat split]].
  - intros fuel retries c0 cls msg Hlt Hv.
    assert (Hb : loop_body self retries env c0 =
                 (Returned (Again (retries + 1)), add_gets 1 c0,
                  [EGet (kline_url self); EPrint (error_line (Error cls msg))])).
    { rewrite loop_body_spec, Hv. reflexivity. }
    split; [exact Hb|].
    rewrite fetch_loop_unfold.
    destruct (Z.ltb_spec retries (max_retries self)); [|lia].
    unfold bind. rewrite Hb. reflexivity.
  - intros Hn Hd Hall run. subst run.
    rewrite fetch_klines_gives_up by assumption.
    unfold result_of, trace_of; simpl.
    split; [reflexivity|]. split.
    + rewrite requests_in_app, requests_in_rounds.
      change (requests_in [EPrint exhausted_line]) with 0%nat. lia.
    + rewrite sleeps_in_app, sleeps_in_rounds. simpl. apply app_nil_r.
Qed.

Lemma transient_errors_retry_at_once_witness :
  fetch_klines default_fetcher
    (env_of (replies [ConnectionFailed "connection refused"]
               (ok_reply test_klines))) start
  = (Returned test_klines, add_gets 2 start,
     [EGet (kline_url default_fetcher);
      EPrint "An error occurred: connection refused";
      EGet (kline_url default_fetcher)])
  /\ (let env :=
        env_of (replies [ConnectionFailed "connection refused";
                         Response 200 (inl "Expecting value");
                         Response 429 (inl "slow down")]
                  (ok_reply (VDict []))) in
      let run := fetch_klines default_fetcher env start in
      result_of run = Returned VNone
      /\ Z.of_nat (requests_in (trace_of run)) = 3
      /\ sleeps_in (trace_of run) = [60]).
Proof.
  split.
  - destruct (transient_errors_retry_at_once default_fetcher
                (env_of (replies [ConnectionFailed "connection refused"]
                           (ok_reply test_klines))) start) as (Hstep & _).
    destruct (Hstep 3%nat 0 start "ConnectionError" "connection refused")
      as [_ Hloop].
    + simpl; lia.
    + reflexivity.
    + unfold fetch_klines.
      change (S (Z.to_nat (max_retries default_fetcher))) with 4%nat.
      rewrite Hloop. reflexivity.
  - intros env.
    destruct (transient_errors_retry_at_once default_fetcher env start)
      as (_ & H & _).
    apply H.
    + simpl; lia.
    + simpl; lia.
    + intros i Hi. simpl in Hi.
      destruct i as [|[|[|i]]]; try reflexivity. lia.
Defined.

(** C10. With [max_retries] zero or negative the loop body never runs:
    [fetch_klines] returns [None] at once, after printing its last line,
    without any request and without sleeping. *)
Theorem fetch_klines_without_budget
  (self : KlineFetcher) (env : Env) (c : Counters) :
  max_retries self <= 0 ->
  let run := fetch_klines self env c in
  run = (Returned VNone, c, [EPrint exhausted_line])
  /\ requests_in (trace_of run) = 0%nat
  /\ sleeps_in (trace_of run) = [].
Proof.
  intros H run. subst run. unfold fetch_klines.
  rewrite fetch_loop_exhausted by lia.
  split; [reflexivity|]. split; reflexivity.
Qed.

Lemma fetch_klines_without_budget_witness :
  fetch_klines
    {| symbol := "SOLUSDT"; interval := "60";
       max_retries := 0; retry_after_seconds := 60 |}
    (env_of always_429) start
  = (Returned VNone, start, [EPrint exhausted_line]).
Proof.
  apply (fetch_klines_without_budget
           {| symbol := "SOLUSDT"; interval := "60";
              max_retries := 0; retry_after_seconds := 60 |}
           (env_of always_429) start).
  simpl; lia.
Defined.

(** ** Claims about the calculator *)

Lemma getitem_contains (klines : value) (key : string) (v : value) :
  getitem klines key = inr v -> contains klines key = inr true.
Proof.
  destruct klines; simpl; try discriminate.
  destruct (dict_get items key); [reflexivity|discriminate].
Qed.

(** [calculate_rsi] by cases: every way through it returns, and it leaves
    the counters alone. *)
Lemma calculate_rsi_spec (lib : Library) (klines : value) (env : Env) (c : Counters) :
  calculate_rsi lib klines env c =
  match contains klines "list" with
  | inl e => (Returned None, c, [EPrint (calculate_rsi_failed_line e)])
  | inr false => (Returned None, c, [EPrint "Invalid klines data format"])
  | inr true =>
      match getitem klines "list" with
      | inl e => (Returned None, c, [EPrint (calculate_rsi_failed_line e)])
      | inr rows =>
          if truthy rows then
            match last_rsi lib rows with
            | inl e => (Returned None, c, [EPrint (calculate_rsi_failed_line e)])
            | inr r => (Returned (Some r), c, [EPrint (rsi_line r)])
            end
          else (Returned None, c, [EPrint "Empty 'list' found in klines"])
      end
  end.
Proof.
  unfold calculate_rsi, calculate_rsi_body, try_except, bind, last_rsi, indicator.
  destruct (contains klines "list") as [e | [|]]; simpl; try reflexivity.
  destruct (getitem klines "list") as [e | rows]; simpl; try reflexivity.
  destruct (truthy rows); simpl; try reflexivity.
  destruct (DataFrame lib rows kline_columns) as [e | df]; simpl; try reflexivity.
  destruct (close_astype_float lib df) as [e | df']; simpl; try reflexivity.
  destruct (rsi_14 lib df') as [e | column]; simpl; try reflexivity.
  destruct (iloc_last column) as [e | x]; simpl; try reflexivity.
  destruct (int_of_float x) as [e | r]; simpl; reflexivity.
Qed.

Lemma calculate_rsi_returns (lib : Library) (klines : value) (env : Env) (c : Counters) :
  exists r t, calculate_rsi lib klines env c = (Returned r, c, t).
Proof.
  rewrite calculate_rsi_spec.
  destruct (contains klines "list") as [e | [|]]; eauto.
  destruct (getitem klines "list") as [e | rows]; eauto.
  destruct (truthy rows); eauto.
  destruct (last_rsi lib rows) as [e | r]; eauto.
Qed.

Lemma inr_inj {A B : Type} (x y : B) : @inr A B x = inr y -> x = y.
Proof. congruence. Qed.

(** [int()] of a float cuts it off toward zero. *)
Lemma int_of_float_truncates (x : spec_float) (r : Z) :
  int_of_float x = inr r -> truncation_of x r.
Proof.
  destruct x as [s | s | | s m e]; unfold int_of_float, truncation_of;
    try discriminate.
  - intros H; injection H as <-. reflexivity.
  - intros H; apply inr_inj in H; subst r.
    destruct (Z.leb_spec 0 e) as [He | He]; cbv beta iota zeta.
    + rewrite (Z.max_l 0 (- e)) by lia. rewrite (Z.max_r 0 e) by lia.
      change (2 ^ 0) with 1.
      assert (0 < 2 ^ e) by (apply Z.pow_pos_nonneg; lia).
      assert (0 < Z.pos m * 2 ^ e) by nia.
      destruct s.
      * rewrite Z.abs_opp, Z.abs_eq by lia. split; lia.
      * rewrite Z.abs_eq by lia. split; lia.
    + rewrite (Z.max_r 0 (- e)) by lia. rewrite (Z.max_l 0 e) by lia.
      change (2 ^ 0) with 1.
      assert (Hp : 0 < 2 ^ (- e)) by (apply Z.pow_pos_nonneg; lia).
      assert (Hq : 0 <= Z.pos m / 2 ^ (- e)) by (apply Z.div_pos; lia).
      pose proof (Z.mul_div_le (Z.pos m) (2 ^ (- e)) Hp) as Hlo.
      pose proof (Z.mul_succ_div_gt (Z.pos m) (2 ^ (- e)) Hp) as Hhi.
      destruct s.
      * rewrite Z.abs_opp, Z.abs_eq by lia. split; [lia|]. split; nia.
      * rewrite Z.abs_eq by lia. split; [lia|]. split; nia.
Qed.

Lemma iloc_last_is_last (column : list spec_float) (x : spec_float) :
  iloc_last column = inr x -> exists front, column = front ++ [x].
Proof.
  destruct column as [|y rest]; simpl; [discriminate|].
  intros H; injection H as <-.
  exists (removelast (y :: rest)).
  rewrite (app_removelast_last y) at 1 by discriminate.
  f_equal. f_equal. destruct rest; reflexivity.
Qed.




(** C6 (amended). [calculate_rsi] has no minimum number of samples.  For a
    candle list of any length from one up it returns [int()] of the last
    value of the library's indicator sequence, and [None] exactly when the
    library raises or [int()] rejects that value. *)
Theorem calculate_rsi_any_length
  (lib : Library) (klines : value) (candles : list value)
  (env : Env) (c : Counters) :
  getitem klines "list" = inr (VList candles) ->
  candles <> [] ->
  let run := calculate_rsi lib klines env c in
  (forall r, last_rsi lib (VList candles) = inr r ->
             run = (Returned (Some r), c, [EPrint (rsi_line r)]))
  /\ (forall e, last_rsi lib (VList candles) = inl e ->
                run = (Returned None, c, [EPrint (calculate_rsi_failed_line e)]))
  /\ (result_of run = Returned None <->
      exists e, last_rsi lib (VList candles) = inl e).
Proof.
  intros Hg Hne run. subst run.
  rewrite calculate_rsi_spec, (getitem_contains _ _ _ Hg), Hg.
  assert (Ht : truthy (VList candles) = true)
    by (destruct candles; [contradiction|reflexivity]).
  rewrite Ht.
  split; [|split].
  - intros r ->. reflexivity.
  - intros e ->. reflexivity.
  - destruct (last_rsi lib (VList candles)) as [e | r]; unfold result_of; simpl.
    + split; eauto.
    + split; [discriminate|]. intros [e He]. discriminate.
Qed.

Lemma calculate_rsi_any_length_witness :
  calculate_rsi Reference.library test_klines (env_of always_429) start
  = (Returned (Some 100), start, [EPrint "RSI value: 100"]).
Proof.
  apply (calculate_rsi_any_length Reference.library test_klines
           [candle "2024-06-23T12:00:00Z" "100" "110" "90" "105";
            candle "2024-06-23T13:00:00Z" "105" "115" "95" "110"]
           (env_of always_429) start).
  - reflexivity.
  - discriminate.
  - vm_compute. reflexivity.
Defined.

(** C6, as stated, fails: the two candles of the repository's own test are
    fewer than 15 samples, and the computation returns 100, not [None]. *)
Lemma calculate_rsi_short_series_counterexample :
  (exists candles,
     getitem test_klines "list" = inr (VList candles)
     /\ (1 <= List.length candles < 15)%nat)
  /\ calculate_rsi Reference.library test_klines (env_of always_429) start
     = (Returned (Some 100), start, [EPrint "RSI value: 100"]).
Proof.
  split.
  - eexists. split; [reflexivity|]. simpl. lia.
  - vm_compute. reflexivity.
Qed.

(** C7. When [calculate_rsi] returns a number, that number is [int()] of the
    last element of the indicator sequence the library computed from the
    candle list, that is, this float cut off toward zero, not rounded; the
    binary64 number 70.9 gives 70. *)
Theorem calculate_rsi_truncates_last_value
  (lib : Library) (klines : value) (env : Env) (c c' : Counters)
  (t : list event) (r : Z) :
  calculate_rsi lib klines env c = (Returned (Some r), c', t) ->
  (exists rows front x,
     getitem klines "list" = inr rows
     /\ indicator lib rows = inr (front ++ [x])
     /\ int_of_float x = inr r
     /\ truncation_of x r)
  /\ Reference.float_of_string "70.9" = Some float_70_9
  /\ int_of_float float_70_9 = inr 70
  /\ calculate_rsi (canned_library [float_70_9]) klines env c
     = (Returned (Some 70), c, [EPrint "RSI value: 70"]).
Proof.
  intros H.
  assert (Hshape : exists rows,
             getitem klines "list" = inr rows /\ truthy rows = true
             /\ last_rsi lib rows = inr r).
  { rewrite calculate_rsi_spec in H.
    destruct (contains klines "list") as [e | [|]]; try discriminate.
    destruct (getitem klines "list") as [e | rows]; try discriminate.
    destruct (truthy rows) eqn:Ht; try discriminate.
    destruct (last_rsi lib rows) as [e | r0] eqn:Hl; try discriminate.
    exists rows. split; [reflexivity|]. split; [exact Ht|].
    congruence. }
  destruct Hshape as (rows & Hg & Ht & Hl).
  split; [|split; [|split]].
  - unfold last_rsi in Hl.
    destruct (indicator lib rows) as [e | column] eqn:Hi; [discriminate|].
    destruct (iloc_last column) as [e | x] eqn:Hx; [discriminate|].
    destruct (iloc_last_is_last _ _ Hx) as [front ->].
    exists rows, front, x.
    split; [exact Hg|]. split; [exact Hi|]. split; [exact Hl|].
    apply int_of_float_truncates. exact Hl.
  - vm_compute. reflexivity.
  - vm_compute. reflexivity.
  - rewrite calculate_rsi_spec, (getitem_contains _ _ _ Hg), Hg, Ht.
    reflexivity.
Qed.

Lemma calculate_rsi_truncates_last_value_witness :
  exists rows front x,
    getitem sample_klines "list" = inr rows
    /\ indicator Reference.library rows = inr (front ++ [x])
    /\ int_of_float x = inr 76
    /\ truncation_of x 76.
Proof.
  apply (calculate_rsi_truncates_last_value Reference.library sample_klines
           (env_of always_429) start start [EPrint "RSI value: 76"] 76).
  vm_compute. reflexivity.
Defined.

(** ** Claims about the cycle *)

Lemma cycles_in_app (t1 t2 : list event) :
  cycles_in (t1 ++ t2) = (cycles_in t1 + cycles_in t2)%nat.
Proof.
  unfold cycles_in. rewrite filter_app, length_app. reflexivity.
Qed.

Lemma sent_in_app (t1 t2 : list event) :
  sent_in (t1 ++ t2) = sent_in t1 ++ sent_in t2.
Proof. unfold sent_in. apply flat_map_app. Qed.

Lemma fetch_events_quiet (t : list event) :
  Forall fetch_event t -> cycles_in t = 0%nat /\ sent_in t = [].
Proof.
  induction 1 as [|e t He _ [IHc IHs]]; [split; reflexivity|].
  destruct e; try contradiction; split; assumption.
Qed.

(** A fetch only issues requests, prints and sleeps; it arms no job and
    sends nothing. *)
Lemma fetch_loop_effects (self : KlineFetcher) (env : Env) :
  forall (fuel : nat) (retries : Z) (c : Counters),
  let run := fetch_loop fuel self retries env c in
  jobs (counters_of run) = jobs c
  /\ sends (counters_of run) = sends c
  /\ Forall fetch_event (trace_of run).
Proof.
  induction fuel as [|fuel IH]; intros retries c run; subst run.
  - simpl. repeat split. constructor.
  - rewrite fetch_loop_unfold.
    destruct (Z.ltb_spec retries (max_retries self)).
    + unfold bind. rewrite loop_body_spec.
      specialize (IH (retries + 1) (add_gets 1 c)).
      destruct (classify (http env (gets c))) eqn:Hv.
      * simpl. repeat split. repeat constructor.
      * destruct (Z.ltb_spec (retry_after_seconds self) 0).
        -- simpl. repeat split. repeat constructor.
        -- destruct (fetch_loop fuel self (retries + 1) env (add_gets 1 c))
             as [[r c'] t].
           unfold counters_of, trace_of in *. simpl in *.
           destruct IH as (Hj & Hs & Ht).
           repeat split; try assumption. repeat constructor. exact Ht.
      * simpl. repeat split. repeat constructor.
      * destruct (fetch_loop fuel self (retries + 1) env (add_gets 1 c))
          as [[r c'] t].
        unfold counters_of, trace_of in *. simpl in *.
        destruct IH as (Hj & Hs & Ht).
        repeat split; try assumption. repeat constructor. exact Ht.
    + simpl. repeat split. repeat constructor.
Qed.

Lemma calculate_rsi_prints (lib : Library) (klines : value) (env : Env) (c : Counters) :
  exists r line, calculate_rsi lib klines env c = (Returned r, c, [EPrint line]).
Proof.
  rewrite calculate_rsi_spec.
  destruct (contains klines "list") as [e | [|]]; eauto.
  destruct (getitem klines "list") as [e | rows]; eauto.
  destruct (truthy rows); eauto.
  destruct (last_rsi lib rows) as [e | r]; eauto.
Qed.

(** One call of the notifier: at most one message, no job armed. *)
Lemma send_rsi_alert_effects (n : Notifier) (message : string) (env : Env) (c : Counters) :
  let run := send_rsi_alert n message env c in
  jobs (counters_of run) = jobs c
  /\ cycles_in (trace_of run) = 0%nat
  /\ (List.length (sent_in (trace_of run)) <= 1)%nat
  /\ result_of run <> OutOfFuel
  /\ (get_channel env (channel_id n) = true ->
      sent_in (trace_of run) = [message]
      /\ (delivery env (sends c) = None -> result_of run = Returned tt)).
Proof.
  unfold send_rsi_alert.
  destruct (get_channel env (channel_id n)).
  - destruct (delivery env (sends c)); simpl;
      repeat split; try lia; try discriminate; try reflexivity.
  - simpl. repeat split; try lia; try discriminate.
Qed.

(** The cycle of the assembled bot, in terms of its three steps. *)
Lemma check_rsi_and_notify_steps
  (self : DiscordBot) (env : Env) (c : Counters) :
  check_rsi_and_notify self env c =
  match fetcher self env c with
  | (Returned klines, c1, t1) =>
      if is_not_none klines then
        match calculator self klines env c1 with
        | (Returned (Some r), c2, t2) =>
            let '(o, c3, t3) := alert_on self r env c2 in
            (o, c3, ECall "check_rsi_and_notify" :: t1 ++ t2 ++ t3)
        | (Returned None, c2, t2) =>
            (Returned tt, c2,
             ECall "check_rsi_and_notify" :: t1 ++ t2
             ++ [EPrint "Failed to calculate RSI"])
        | (Raised e, c2, t2) =>
            (Raised e, c2, ECall "check_rsi_and_notify" :: t1 ++ t2)
        | (OutOfFuel, c2, t2) =>
            (OutOfFuel, c2, ECall "check_rsi_and_notify" :: t1 ++ t2)
        end
      else
        (Returned tt, c1,
         ECall "check_rsi_and_notify" :: t1 ++ [EPrint "Failed to fetch klines data"])
  | (Raised e, c1, t1) => (Raised e, c1, ECall "check_rsi_and_notify" :: t1)
  | (OutOfFuel, c1, t1) => (OutOfFuel, c1, ECall "check_rsi_and_notify" :: t1)
  end.
Proof.
  unfold check_rsi_and_notify, bind, emit, print. simpl.
  destruct (fetcher self env c) as [[[klines | e |] c1] t1]; try reflexivity.
  destruct (is_not_none klines); [|reflexivity].
  destruct (calculator self klines env c1) as [[[[r|] | e |] c2] t2];
    try reflexivity.
  destruct (alert_on self r env c2) as [[o c3] t3]. reflexivity.
Qed.

Lemma cycles_in_call (method : string) (t : list event) :
  cycles_in (ECall method :: t) = S (cycles_in t).
Proof. reflexivity. Qed.

Lemma sent_in_call (method : string) (t : list event) :
  sent_in (ECall method :: t) = sent_in t.
Proof. reflexivity. Qed.

Create Rewrite HintDb trace.
#[local] Hint Rewrite cycles_in_call sent_in_call cycles_in_app sent_in_app
  : trace.

(** Counts the cycles and messages of a trace made of the entry mark of the
    cycle, fetch events and printed lines. *)
Ltac count_trace Hc Hs :=
  autorewrite with trace; rewrite ?Hc, ?Hs; simpl;
  repeat split; try congruence; try lia.

(** The cycle of a bot assembled from the three concrete parts arms no job,
    counts as one cycle, sends at most one message and ends. *)
Lemma check_rsi_and_notify_effects
  (lib : Library) (f : KlineFetcher) (n : Notifier) (env : Env) (c : Counters) :
  let run := check_rsi_and_notify (make_bot lib f n) env c in
  jobs (counters_of run) = jobs c
  /\ cycles_in (trace_of run) = 1%nat
  /\ (List.length (sent_in (trace_of run)) <= 1)%nat
  /\ result_of run <> OutOfFuel.
Proof.
  intros run. subst run. rewrite check_rsi_and_notify_steps.
  unfold make_bot, alert_on. cbn [fetcher calculator notifier].
  pose proof (fetch_loop_effects f env (S (Z.to_nat (max_retries f))) 0 c) as Hf.
  pose proof (fetch_klines_terminates f env c) as Hend.
  fold (fetch_klines f) in Hf.
  destruct (fetch_klines f env c) as [[o c1] t1].
  unfold counters_of, trace_of, result_of in *. simpl in Hf, Hend.
  destruct Hf as (Hj & _ & Ht).
  destruct (fetch_events_quiet _ Ht) as [Hc Hs].
  destruct o as [klines | e |]; [| |contradiction].
  - destruct (is_not_none klines).
    + destruct (calculate_rsi_prints lib klines env c1) as (r & line & ->).
      destruct r as [r|].
      * assert (Hany : forall message,
                  let '(o, c3, t3) := send_rsi_alert n message env c1 in
                  jobs c3 = jobs c
                  /\ cycles_in (ECall "check_rsi_and_notify"
                                :: t1 ++ [EPrint line] ++ t3) = 1%nat
                  /\ (List.length
                        (sent_in (ECall "check_rsi_and_notify"
                                  :: t1 ++ [EPrint line] ++ t3)) <= 1)%nat
                  /\ o <> OutOfFuel).
        { intros message.
          pose proof (send_rsi_alert_effects n message env c1) as Hn.
          destruct (send_rsi_alert n message env c1) as [[o c3] t3].
          unfold counters_of, trace_of, result_of in Hn. simpl in Hn.
          destruct Hn as (Hj3 & Hc3 & Hs3 & Ho & _).
          count_trace Hc Hs. }
        destruct (r >? 70).
        -- specialize (Hany (overbought_message r)).
           destruct (send_rsi_alert n (overbought_message r) env c1)
             as [[o c3] t3]. exact Hany.
        -- destruct (r <? 30).
           ++ specialize (Hany (oversold_message r)).
              destruct (send_rsi_alert n (oversold_message r) env c1)
                as [[o c3] t3]. exact Hany.
           ++ unfold ret; cbn [fst snd]. count_trace Hc Hs.
      * cbn [fst snd]. count_trace Hc Hs.
    + cbn [fst snd]. count_trace Hc Hs.
  - cbn [fst snd]. count_trace Hc Hs.
Qed.

(** C4. Once the cycle has an RSI [r], what it does next depends on [r]
    alone: above 70 it calls the notifier once with "RSI is overbought at r",
    below 30 once with "RSI is oversold at r", and from 30 to 70, both
    included, it does not call the notifier at all.  So a cycle alerts at
    most once. *)
Theorem check_rsi_and_notify_thresholds
  (self : DiscordBot) (env : Env) (c c1 c2 : Counters)
  (t1 t2 : list event) (klines : value) (r : Z) :
  fetcher self env c = (Returned klines, c1, t1) ->
  is_not_none klines = true ->
  calculator self klines env c1 = (Returned (Some r), c2, t2) ->
  let run := check_rsi_and_notify self env c in
  let alert (message : string) :=
    let '(o, c3, t3) := notifier self message env c2 in
    (o, c3, ECall "check_rsi_and_notify" :: t1 ++ t2 ++ t3) in
  (70 < r -> run = alert ("RSI is overbought at " ++ str_int r)%string)
  /\ (r < 30 -> run = alert ("RSI is oversold at " ++ str_int r)%string)
  /\ (30 <= r <= 70 ->
      run = (Returned tt, c2, ECall "check_rsi_and_notify" :: t1 ++ t2)).
Proof.
  intros Hf Hk Hc run alert. subst run alert.
  rewrite check_rsi_and_notify_steps, Hf, Hk, Hc. unfold alert_on.
  split; [|split]; intros Hr.
  - destruct (Z.gtb_spec r 70); [reflexivity|lia].
  - destruct (Z.gtb_spec r 70); [lia|].
    destruct (Z.ltb_spec r 30); [reflexivity|lia].
  - destruct (Z.gtb_spec r 70); [lia|].
    destruct (Z.ltb_spec r 30); [lia|].
    unfold ret. rewrite app_nil_r. reflexivity.
Qed.

Lemma check_rsi_and_notify_thresholds_witness :
  sent_in (trace_of (check_rsi_and_notify (canned_bot 70) (steady_env test_klines) start)) = []
  /\ sent_in (trace_of (check_rsi_and_notify (canned_bot 71) (steady_env test_klines) start))
     = ["RSI is overbought at 71"]
  /\ sent_in (trace_of (check_rsi_and_notify (canned_bot 30) (steady_env test_klines) start)) = []
  /\ sent_in (trace_of (check_rsi_and_notify (canned_bot 29) (steady_env test_klines) start))
     = ["RSI is oversold at 29"].
Proof.
  split; [|split; [|split]].
  - destruct (check_rsi_and_notify_thresholds (canned_bot 70)
                (steady_env test_klines) start _ _ _ _ _ 70
                eq_refl eq_refl eq_refl) as (_ & _ & H).
    rewrite H by lia. reflexivity.
  - destruct (check_rsi_and_notify_thresholds (canned_bot 71)
                (steady_env test_klines) start _ _ _ _ _ 71
                eq_refl eq_refl eq_refl) as (H & _ & _).
    rewrite H by lia. reflexivity.
  - destruct (check_rsi_and_notify_thresholds (canned_bot 30)
                (steady_env test_klines) start _ _ _ _ _ 30
                eq_refl eq_refl eq_refl) as (_ & _ & H).
    rewrite H by lia. reflexivity.
  - destruct (check_rsi_and_notify_thresholds (canned_bot 29)
                (steady_env test_klines) start _ _ _ _ _ 29
                eq_refl eq_refl eq_refl) as (_ & H & _).
    rewrite H by lia. reflexivity.
Defined.

Lemma calculate_rsi_lines
  (lib : Library) (klines : value) (env : Env) (c : Counters) :
  (exists r, calculate_rsi lib klines env c
             = (Returned (Some r), c, [EPrint (rsi_line r)]))
  \/ (exists line,
        calculate_rsi lib klines env c = (Returned None, c, [EPrint line])
        /\ (line = "Invalid klines data format"
            \/ line = "Empty 'list' found in klines"
            \/ exists e, line = calculate_rsi_failed_line e)).
Proof.
  rewrite calculate_rsi_spec.
  destruct (contains klines "list") as [e | [|]].
  - right. eexists. split; [reflexivity|]. right. right. eauto.
  - destruct (getitem klines "list") as [e | rows].
    + right. eexists. split; [reflexivity|]. right. right. eauto.
    + destruct (truthy rows).
      * destruct (last_rsi lib rows) as [e | r].
        -- right. eexists. split; [reflexivity|]. right. right. eauto.
        -- left. eauto.
      * right. eexists. split; [reflexivity|]. right. left. reflexivity.
  - right. eexists. split; [reflexivity|]. left. reflexivity.
Qed.

(** A round that goes round again has printed its line. *)
Lemma retried_round_prints (f : KlineFetcher) (v : verdict) :
  retryable v = true ->
  round_trace f v
  = [EGet (kline_url f); EPrint (rate_limit_line f);
     ESleep (retry_after_seconds f)]
  \/ exists cls msg,
       round_trace f v
       = [EGet (kline_url f); EPrint (error_line (Error cls msg))].
Proof.
  destruct v as [v | | s | cls msg]; try discriminate; intros _.
  - left. reflexivity.
  - right. exists cls, msg. reflexivity.
Qed.

(** C3 (amended). A cycle ends without an exception whenever the endpoint
    gives no HTTP error other than 429, the sleep length is valid and the
    chat delivery works, and every failure in it is left as a printed line:
    each round that is retried prints its line, running out of retries
    prints the "Max retries" line and the cycle its "Failed to fetch" line,
    as it does for a [None] result, and a payload on which the calculator
    fails prints the calculator's line and "Failed to calculate RSI"; none
    of these sends a message.  A 4xx or 5xx status other than 429, at
    whichever request of the cycle it comes, is raised by [fetch_klines] and
    leaves [check_rsi_and_notify] as that [HTTPError]. *)
Theorem check_rsi_and_notify_contains_failures
  (lib : Library) (f : KlineFetcher) (n : Notifier) (env : Env) (c : Counters) :
  (0 <= retry_after_seconds f ->
   (forall i s b, http env i = Response s b -> 400 <= s < 600 -> s = 429) ->
   get_channel env (channel_id n) = true ->
   (forall k, delivery env k = None) ->
   exists c' k tail,
     check_rsi_and_notify (make_bot lib f n) env c
     = (Returned tt, c',
        ECall "check_rsi_and_notify"
        :: rounds_trace f env (gets c) k ++ tail)
     /\ (forall i, (i < k)%nat ->
           round_trace f (classify (http env (gets c + i)))
           = [EGet (kline_url f); EPrint (rate_limit_line f);
              ESleep (retry_after_seconds f)]
           \/ exists cls msg,
                round_trace f (classify (http env (gets c + i)))
                = [EGet (kline_url f); EPrint (error_line (Error cls msg))])
     /\ ((k = Z.to_nat (max_retries f)
          /\ tail = [EPrint exhausted_line; EPrint "Failed to fetch klines data"])
         \/ tail = [EGet (kline_url f); EPrint "Failed to fetch klines data"]
         \/ (exists line,
               tail = [EGet (kline_url f); EPrint line;
                       EPrint "Failed to calculate RSI"]
               /\ (line = "Invalid klines data format"
                   \/ line = "Empty 'list' found in klines"
                   \/ exists e, line = calculate_rsi_failed_line e))
         \/ (exists r,
               30 <= r <= 70
               /\ tail = [EGet (kline_url f); EPrint (rsi_line r)])
         \/ (exists r message,
               ((70 < r /\ message = overbought_message r)
                \/ (r < 30 /\ message = oversold_message r))
               /\ tail = [EGet (kline_url f); EPrint (rsi_line r);
                          ESend (channel_id n) message])))
  /\ (forall (k : nat) s b,
        0 <= retry_after_seconds f ->
        Z.of_nat k < max_retries f ->
        (forall i, (i < k)%nat ->
                   retryable (classify (http env (gets c + i))) = true) ->
        http env (gets c + k) = Response s b ->
        400 <= s < 600 ->
        s <> 429 ->
        check_rsi_and_notify (make_bot lib f n) env c
        = (Raised (HTTPError s), add_gets (S k) c,
           ECall "check_rsi_and_notify"
           :: rounds_trace f env (gets c) k ++ [EGet (kline_url f)])).
Proof.
  split.
  - intros Hd Hhttp Hch Hdel.
    destruct (fetch_klines_run f env c Hd) as (k & Hall & Hcase).
    assert (Hrounds : forall i, (i < k)%nat ->
              round_trace f (classify (http env (gets c + i)))
              = [EGet (kline_url f); EPrint (rate_limit_line f);
                 ESleep (retry_after_seconds f)]
              \/ exists cls msg,
                   round_trace f (classify (http env (gets c + i)))
                   = [EGet (kline_url f); EPrint (error_line (Error cls msg))]).
    { intros i Hi. apply retried_round_prints. apply Hall. exact Hi. }
    rewrite check_rsi_and_notify_steps.
    unfold make_bot, alert_on. cbn [fetcher calculator notifier].
    destruct Hcase as [(Hlt & v & Hv & ->)
                      | [(Hlt & s & Hs & _) | (Hk & ->)]].
    + destruct (is_not_none v).
      * destruct (calculate_rsi_lines lib v env (add_gets (S k) c))
          as [(r & ->) | (line & -> & Hline)].
        -- assert (Hsend : forall message,
                     send_rsi_alert n message env (add_gets (S k) c)
                     = (Returned tt,
                        {| gets := gets (add_gets (S k) c);
                           sends := S (sends (add_gets (S k) c));
                           jobs := jobs (add_gets (S k) c) |},
                        [ESend (channel_id n) message])).
           { intros message. unfold send_rsi_alert. rewrite Hch, Hdel.
             reflexivity. }
           destruct (Z.gtb_spec r 70) as [Hhi | Hhi].
           ++ rewrite Hsend. eexists. exists k. eexists.
              split; [rewrite <- app_assoc; reflexivity|].
              split; [exact Hrounds|].
              right. right. right. right.
              exists r, (overbought_message r).
              split; [left; split; [lia|reflexivity] | reflexivity].
           ++ destruct (Z.ltb_spec r 30) as [Hlo | Hlo].
              ** rewrite Hsend. eexists. exists k. eexists.
                 split; [rewrite <- app_assoc; reflexivity|].
                 split; [exact Hrounds|].
                 right. right. right. right.
                 exists r, (oversold_message r).
                 split; [right; split; [lia|reflexivity] | reflexivity].
              ** unfold ret. eexists. exists k. eexists.
                 split; [rewrite <- app_assoc; reflexivity|].
                 split; [exact Hrounds|].
                 right. right. right. left. exists r.
                 split; [lia | reflexivity].
        -- eexists. exists k. eexists.
           split; [rewrite <- app_assoc; reflexivity|].
           split; [exact Hrounds|].
           right. right. left. exists line. split; [reflexivity | exact Hline].
      * eexists. exists k. eexists.
        split; [rewrite <- app_assoc; reflexivity|].
        split; [exact Hrounds|].
        right. left. reflexivity.
    + destruct (classify_http_failure _ _ Hs) as (b & Hb & Hrange & Hne).
      destruct (Hne (Hhttp _ _ _ Hb Hrange)).
    + cbn [is_not_none]. eexists. exists k. eexists.
      split; [rewrite <- app_assoc; reflexivity|].
      split; [exact Hrounds|].
      left. split; [exact Hk | reflexivity].
  - intros k s b Hd Hk Hall Hreply Hs Hne.
    rewrite check_rsi_and_notify_steps.
    unfold make_bot. cbn [fetcher calculator notifier].
    rewrite (fetch_klines_raises_http_error f env c k s b
               Hd Hk Hall Hreply Hs Hne).
    reflexivity.
Qed.

Lemma check_rsi_and_notify_contains_failures_witness :
  result_of (check_rsi_and_notify main_bot (env_of always_429) start)
  = Returned tt
  /\ check_rsi_and_notify main_bot
       (env_of (replies [Response 429 (inl "slow down")]
                  (Response 500 (inl "Internal Server Error")))) start
     = (Raised (HTTPError 500), add_gets 2 start,
        [ECall "check_rsi_and_notify";
         EGet (kline_url default_fetcher);
         EPrint (rate_limit_line default_fetcher); ESleep 60;
         EGet (kline_url default_fetcher)]).
Proof.
  split.
  - destruct (proj1 (check_rsi_and_notify_contains_failures Reference.library
                       default_fetcher alerts_channel (env_of always_429) start))
      as (c' & k & tail & Hrun & _ & _).
    + simpl; lia.
    + intros i s b H _. unfold env_of, always_429 in H. simpl in H.
      injection H as <- _. reflexivity.
    + reflexivity.
    + reflexivity.
    + unfold main_bot. rewrite Hrun. reflexivity.
  - apply (proj2 (check_rsi_and_notify_contains_failures Reference.library
                    default_fetcher alerts_channel
                    (env_of (replies [Response 429 (inl "slow down")]
                               (Response 500 (inl "Internal Server Error"))))
                    start)
             1%nat 500 (inl "Internal Server Error")).
    + simpl; lia.
    + simpl; lia.
    + intros i Hi. assert (i = 0%nat) as -> by lia. reflexivity.
    + reflexivity.
    + lia.
    + lia.
Defined.

(** C3, as stated, fails: with the endpoint answering 500, the cycle of the
    bot of [__main__] ends with the [HTTPError] raised to its caller. *)
Lemma check_rsi_and_notify_raises_counterexample :
  http server_error_env 0 = Response 500 (inl "Internal Server Error")
  /\ result_of (check_rsi_and_notify main_bot server_error_env start)
     = Raised (HTTPError 500).
Proof. split; reflexivity. Qed.

(** ** Claims about the schedule *)

(** The hourly job is due exactly on the hour. *)
Lemma cron_fires_on_the_hour (t : Z) :
  cron_fires hourly_job t = true <-> t mod 3600 = 0.
Proof.
  unfold cron_fires, hourly_job. cbn [minute].
  rewrite andb_true_iff, !Z.eqb_eq.
  split.
  - intros [H1 H2]. Z.div_mod_to_equations. lia.
  - intros H. Z.div_mod_to_equations. lia.
Qed.




(** * Further properties *)

(** ** The fetcher *)

(** A reply outside 4xx and 5xx whose body is a dict with "result" is a
    success. *)
Lemma classify_success (s : Z) (data result : value) :
  ~ 400 <= s < 600 ->
  getitem data "result" = inr result ->
  classify (Response s (inr data)) = Success result.
Proof.
  intros Hs Hg. unfold classify.
  destruct ((400 <=? s) && (s <? 600)) eqn:E.
  - apply andb_true_iff in E. destruct E as [Hlo Hhi].
    apply Z.leb_le in Hlo. apply Z.ltb_lt in Hhi. lia.
  - rewrite Hg. reflexivity.
Qed.

(** X1. Retried rounds followed by a good answer: [fetch_klines] returns the
    "result" of that answer, after exactly one request per round and one for
    the answer, which is the last event of the run. *)
Theorem fetch_klines_returns_first_result
  (self : KlineFetcher) (env : Env) (c : Counters)
  (k : nat) (s : Z) (data result : value) :
  0 <= retry_after_seconds self ->
  Z.of_nat k < max_retries self ->
  (forall i, (i < k)%nat -> retryable (classify (http env (gets c + i))) = true) ->
  http env (gets c + k) = Response s (inr data) ->
  ~ 400 <= s < 600 ->
  getitem data "result" = inr result ->
  let run := fetch_klines self env c in
  run = (Returned result, add_gets (S k) c,
         rounds_trace self env (gets c) k ++ [EGet (kline_url self)])
  /\ requests_in (trace_of run) = S k
  /\ List.length (sleeps_in (trace_of run)) = rate_limits env (gets c) k.
Proof.
  intros Hd Hk Hall Hreply Hs Hg run. subst run.
  assert (E : fetch_klines self env c =
              (Returned result, add_gets (S k) c,
               rounds_trace self env (gets c) k ++ [EGet (kline_url self)])).
  { unfold fetch_klines.
    replace (S (Z.to_nat (max_retries self)))
      with (k + S (Z.to_nat (max_retries self) - k))%nat by lia.
    rewrite fetch_loop_rounds; [|assumption|lia|assumption].
    rewrite fetch_loop_unfold.
    destruct (Z.ltb_spec (0 + Z.of_nat k) (max_retries self)); [|lia].
    unfold bind. rewrite loop_body_spec.
    replace (gets (add_gets k c)) with (gets c + k)%nat by (simpl; lia).
    rewrite Hreply, (classify_success s data result Hs Hg).
    rewrite add_gets_add. reflexivity. }
  rewrite E. unfold trace_of; simpl. split; [reflexivity|]. split.
  - rewrite requests_in_app, requests_in_rounds.
    change (requests_in [EGet (kline_url self)]) with 1%nat. lia.
  - rewrite sleeps_in_app, sleeps_in_rounds. simpl.
    rewrite app_nil_r. apply repeat_length.
Qed.

Lemma fetch_klines_returns_first_result_witness :
  fetch_klines default_fetcher
    (env_of (replies [Response 429 (inl "slow down");
                      ConnectionFailed "connection reset"]
               (ok_reply test_klines))) start
  = (Returned test_klines, add_gets 3 start,
     [EGet (kline_url default_fetcher);
      EPrint (rate_limit_line default_fetcher); ESleep 60;
      EGet (kline_url default_fetcher);
      EPrint "An error occurred: connection reset";
      EGet (kline_url default_fetcher)]).
Proof.
  apply (fetch_klines_returns_first_result default_fetcher
           (env_of (replies [Response 429 (inl "slow down");
                             ConnectionFailed "connection reset"]
                      (ok_reply test_klines)))
           start 2 200
           (VDict [("retCode", VInt 0); ("result", test_klines)]) test_klines).
  - simpl; lia.
  - simpl; lia.
  - intros i Hi. destruct i as [|[|i]]; try reflexivity. lia.
  - reflexivity.
  - lia.
  - reflexivity.
Defined.

Lemma requests_in_round (self : KlineFetcher) (v : verdict) (t : list event) :
  requests_in (round_trace self v ++ t) = S (requests_in t).
Proof. destruct v; reflexivity. Qed.

Lemma sleeps_in_round (self : KlineFetcher) (v : verdict) (t : list event) :
  (List.length (sleeps_in (round_trace self v ++ t))
   <= S (List.length (sleeps_in t)))%nat.
Proof. destruct v; simpl; lia. Qed.

(** What every run of the loop keeps to, whatever the endpoint answers. *)
Lemma fetch_loop_budget (self : KlineFetcher) (env : Env) :
  forall (fuel : nat) (retries : Z) (c : Counters),
  let run := fetch_loop fuel self retries env c in
  Z.of_nat (requests_in (trace_of run)) <= Z.max 0 (max_retries self - retries)
  /\ gets (counters_of run) = (requests_in (trace_of run) + gets c)%nat
  /\ (List.length (sleeps_in (trace_of run)) <= requests_in (trace_of run))%nat
  /\ Forall (fetch_event_of self) (trace_of run).
Proof.
  induction fuel as [|fuel IH]; intros retries c run; subst run.
  - simpl. repeat split; try lia. constructor.
  - rewrite fetch_loop_unfold.
    destruct (Z.ltb_spec retries (max_retries self)) as [Hlt | Hge].
    + unfold bind. rewrite loop_body_spec.
      specialize (IH (retries + 1) (add_gets 1 c)).
      destruct (classify (http env (gets c))) eqn:Hv.
      * unfold counters_of, trace_of. simpl.
        repeat split; try lia. repeat constructor.
      * destruct (Z.ltb_spec (retry_after_seconds self) 0) as [Hneg | Hpos].
        -- unfold counters_of, trace_of. simpl.
           repeat split; try lia. repeat constructor.
        -- destruct (fetch_loop fuel self (retries + 1) env (add_gets 1 c))
             as [[r c'] t].
           unfold counters_of, trace_of in *. cbn [fst snd] in *.
           destruct IH as (Hq & Hg & Hs & Ht).
           rewrite requests_in_round.
           pose proof (sleeps_in_round self RateLimited t) as Hsl.
           simpl gets in Hg.
           repeat split; try lia.
           repeat constructor; try assumption.
      * unfold counters_of, trace_of. simpl.
        repeat split; try lia. repeat constructor.
      * destruct (fetch_loop fuel self (retries + 1) env (add_gets 1 c))
          as [[r c'] t].
        unfold counters_of, trace_of in *. cbn [fst snd] in *.
        destruct IH as (Hq & Hg & Hs & Ht).
        rewrite requests_in_round.
        pose proof (sleeps_in_round self (Transient cls msg) t) as Hsl.
        simpl gets in Hg.
        repeat split; try lia.
        repeat constructor; try assumption.
    + unfold counters_of, trace_of. simpl.
      repeat split; try lia. repeat constructor.
Qed.

(** X2. Whatever the endpoint answers, [fetch_klines] makes at most
    [max_retries] requests (none when that is negative), all to its own URL,
    never sleeps more often than it has asked, and every sleep is
    [retry_after_seconds]; the number of replies it has used up is the
    number of requests in its trace. *)
Theorem fetch_klines_stays_within_budget
  (self : KlineFetcher) (env : Env) (c : Counters) :
  let run := fetch_klines self env c in
  Z.of_nat (requests_in (trace_of run)) <= Z.max 0 (max_retries self)
  /\ gets (counters_of run) = (requests_in (trace_of run) + gets c)%nat
  /\ (List.length (sleeps_in (trace_of run)) <= requests_in (trace_of run))%nat
  /\ Forall (fetch_event_of self) (trace_of run).
Proof.
  intros run. subst run.
  pose proof (fetch_loop_budget self env (S (Z.to_nat (max_retries self))) 0 c)
    as H.
  rewrite Z.sub_0_r in H. exact H.
Qed.

(** X3. With a valid sleep length, the only exception that leaves
    [fetch_klines] is the [HTTPError] of the reply to the last request of
    that call: after [k] rounds that went round again, with [k] below
    [max_retries], the reply to request [k] of the call had a 4xx or 5xx
    status other than 429, and the run ended with that request. *)
Theorem fetch_klines_raises_only_http_errors
  (self : KlineFetcher) (env : Env) (c : Counters) (e : exn) :
  0 <= retry_after_seconds self ->
  result_of (fetch_klines self env c) = Raised e ->
  exists s k b,
    e = HTTPError s
    /\ Z.of_nat k < max_retries self
    /\ (forall i, (i < k)%nat ->
                  retryable (classify (http env (gets c + i))) = true)
    /\ http env (gets c + k) = Response s b
    /\ 400 <= s < 600 /\ s <> 429
    /\ fetch_klines self env c
       = (Raised (HTTPError s), add_gets (S k) c,
          rounds_trace self env (gets c) k ++ [EGet (kline_url self)]).
Proof.
  intros Hd Hr.
  destruct (fetch_klines_run self env c Hd) as (k & Hall & Hcase).
  destruct Hcase as [(Hlt & v & Hv & Hrun)
                    | [(Hlt & s & Hs & Hrun) | (Hk & Hrun)]];
    rewrite Hrun in Hr; unfold result_of in Hr; cbn [fst] in Hr;
    try discriminate.
  injection Hr as <-.
  destruct (classify_http_failure _ _ Hs) as (b & Hb & Hrange & Hne).
  exists s, k, b. repeat split; try assumption; lia.
Qed.

Lemma fetch_klines_raises_only_http_errors_witness :
  exists s k b,
    HTTPError 500 = HTTPError s
    /\ Z.of_nat k < max_retries default_fetcher
    /\ (forall i, (i < k)%nat ->
          retryable (classify (http (env_of (replies [Response 429 (inl "slow down")]
                                        (Response 500 (inl "Internal Server Error"))))
                                 (gets start + i))) = true)
    /\ http (env_of (replies [Response 429 (inl "slow down")]
                       (Response 500 (inl "Internal Server Error"))))
         (gets start + k) = Response s b
    /\ 400 <= s < 600 /\ s <> 429
    /\ fetch_klines default_fetcher
         (env_of (replies [Response 429 (inl "slow down")]
                    (Response 500 (inl "Internal Server Error")))) start
       = (Raised (HTTPError s), add_gets (S k) start,
          rounds_trace default_fetcher
            (env_of (replies [Response 429 (inl "slow down")]
                       (Response 500 (inl "Internal Server Error"))))
            (gets start) k
          ++ [EGet (kline_url default_fetcher)]).
Proof.
  apply (fetch_klines_raises_only_http_errors default_fetcher
           (env_of (replies [Response 429 (inl "slow down")]
                      (Response 500 (inl "Internal Server Error"))))
           start (HTTPError 500)).
  - simpl; lia.
  - reflexivity.
Defined.

(** ** The calculator *)

(** X5. [calculate_rsi] touches nothing but the console: it leaves the counters
    as they are, prints exactly one line, which is the "RSI value" line of
    the number it returns or one of its three failure lines, and its result
    and line are the same under every network and at every point of a run. *)
Theorem calculate_rsi_only_prints
  (lib : Library) (klines : value) (env : Env) (c : Counters) :
  (exists r line,
     calculate_rsi lib klines env c = (Returned r, c, [EPrint line])
     /\ match r with
        | Some v => line = rsi_line v
        | None =>
            line = "Invalid klines data format"
            \/ line = "Empty 'list' found in klines"
            \/ exists e, line = calculate_rsi_failed_line e
        end)
  /\ (forall env' c',
        result_of (calculate_rsi lib klines env' c')
        = result_of (calculate_rsi lib klines env c)
        /\ trace_of (calculate_rsi lib klines env' c')
           = trace_of (calculate_rsi lib klines env c)).
Proof.
  split.
  - rewrite calculate_rsi_spec.
    assert (Hfail : forall e,
      exists r line,
        (Returned (@None Z), c, [EPrint (calculate_rsi_failed_line e)])
        = (Returned r, c, [EPrint line])
        /\ match r with
           | Some v => line = rsi_line v
           | None =>
               line = "Invalid klines data format"
               \/ line = "Empty 'list' found in klines"
               \/ exists e0, line = calculate_rsi_failed_line e0
           end).
    { intros e. exists None, (calculate_rsi_failed_line e).
      split; [reflexivity|]. right. right. exists e. reflexivity. }
    destruct (contains klines "list") as [e | [|]]; [apply Hfail| |].
    + destruct (getitem klines "list") as [e | rows]; [apply Hfail|].
      destruct (truthy rows).
      * destruct (last_rsi lib rows) as [e | r]; [apply Hfail|].
        exists (Some r), (rsi_line r). split; reflexivity.
      * exists None, "Empty 'list' found in klines".
        split; [reflexivity|]. right. left. reflexivity.
    + exists None, "Invalid klines data format".
      split; [reflexivity|]. left. reflexivity.
  - intros env' c'. rewrite !calculate_rsi_spec.
    destruct (contains klines "list") as [e | [|]]; try (split; reflexivity).
    destruct (getitem klines "list") as [e | rows]; try (split; reflexivity).
    destruct (truthy rows); try (split; reflexivity).
    destruct (last_rsi lib rows) as [e | r]; split; reflexivity.
Qed.

(** X6. [calculate_rsi] gives up before it calls the library when the payload
    is not a dict, whatever it is (also a string or a list that contains
    "list"), and when the value at "list" is empty or otherwise false
    ([None], 0, an empty string or dict): the result is [None] under every
    library. *)
Theorem calculate_rsi_gives_up_before_the_library
  (lib : Library) (klines : value) (env : Env) (c : Counters) :
  (forall items, klines <> VDict items)
  \/ (exists rows, getitem klines "list" = inr rows /\ truthy rows = false) ->
  result_of (calculate_rsi lib klines env c) = Returned None
  /\ (forall lib', calculate_rsi lib' klines env c = calculate_rsi lib klines env c)
  /\ ((exists rows, getitem klines "list" = inr rows /\ truthy rows = false) ->
      trace_of (calculate_rsi lib klines env c)
      = [EPrint "Empty 'list' found in klines"]).
Proof.
  intros H.
  assert (Hshape :
    forall l, calculate_rsi l klines env c =
      match contains klines "list" with
      | inl e => (Returned None, c, [EPrint (calculate_rsi_failed_line e)])
      | inr false => (Returned None, c, [EPrint "Invalid klines data format"])
      | inr true =>
          match getitem klines "list" with
          | inl e => (Returned None, c, [EPrint (calculate_rsi_failed_line e)])
          | inr _ => (Returned None, c, [EPrint "Empty 'list' found in klines"])
          end
      end).
  { intros l. rewrite calculate_rsi_spec.
    destruct H as [Hnd | (rows & Hg & Ht)].
    - destruct klines as [ | b | z | x | s | items | items]; try reflexivity.
      destruct (Hnd items eq_refl).
    - rewrite (getitem_contains _ _ _ Hg), Hg, Ht. reflexivity. }
  split; [|split].
  - rewrite Hshape.
    destruct (contains klines "list") as [e | [|]]; try reflexivity.
    destruct (getitem klines "list"); reflexivity.
  - intros lib'. rewrite !Hshape. reflexivity.
  - intros (rows & Hg & Ht). rewrite Hshape.
    rewrite (getitem_contains _ _ _ Hg), Hg. reflexivity.
Qed.

Lemma calculate_rsi_gives_up_before_the_library_witness :
  result_of (calculate_rsi Reference.library (VStr "a list of candles")
               (env_of always_429) start) = Returned None
  /\ trace_of (calculate_rsi Reference.library (VDict [("list", VNone)])
                 (env_of always_429) start)
     = [EPrint "Empty 'list' found in klines"].
Proof.
  split.
  - apply (calculate_rsi_gives_up_before_the_library Reference.library
             (VStr "a list of candles") (env_of always_429) start).
    left. intros items. discriminate.
  - apply (calculate_rsi_gives_up_before_the_library Reference.library
             (VDict [("list", VNone)]) (env_of always_429) start).
    + right. exists VNone. split; reflexivity.
    + exists VNone. split; reflexivity.
Defined.

(** ** The cycle *)

Lemma calculate_rsi_some
  (lib : Library) (klines : value) (env : Env) (c c' : Counters)
  (t : list event) (r : Z) :
  calculate_rsi lib klines env c = (Returned (Some r), c', t) ->
  c' = c /\ t = [EPrint (rsi_line r)].
Proof.
  rewrite calculate_rsi_spec.
  destruct (contains klines "list") as [e | [|]]; try discriminate.
  destruct (getitem klines "list") as [e | rows]; try discriminate.
  destruct (truthy rows); try discriminate.
  destruct (last_rsi lib rows) as [e | r0]; try discriminate.
  intros H. injection H as <- <- <-. split; reflexivity.
Qed.

Lemma send_rsi_alert_trace
  (n : Notifier) (message : string) (env : Env) (c : Counters) :
  trace_of (send_rsi_alert n message env c)
  = if get_channel env (channel_id n)
    then [ESend (channel_id n) message] else [].
Proof.
  unfold send_rsi_alert. destruct (get_channel env (channel_id n)).
  - destruct (delivery env (sends c)); reflexivity.
  - reflexivity.
Qed.

(** The five ways through a cycle of the assembled bot: the fetch raises;
    the fetch gives [None]; the calculator gives [None]; the RSI is within
    the band; the RSI is beyond a threshold and the notifier is called. *)
Lemma cycle_cases
  (lib : Library) (f : KlineFetcher) (n : Notifier) (env : Env) (c : Counters) :
  let run := check_rsi_and_notify (make_bot lib f n) env c in
  exists o cf tf,
    fetch_klines f env c = (o, cf, tf)
    /\ ((exists e, o = Raised e
         /\ run = (Raised e, cf, ECall "check_rsi_and_notify" :: tf))
        \/ (exists klines, o = Returned klines /\ is_not_none klines = false
            /\ run = (Returned tt, cf,
                      ECall "check_rsi_and_notify"
                      :: tf ++ [EPrint "Failed to fetch klines data"]))
        \/ (exists klines line, o = Returned klines /\ is_not_none klines = true
            /\ calculate_rsi lib klines env cf = (Returned None, cf, [EPrint line])
            /\ run = (Returned tt, cf,
                      ECall "check_rsi_and_notify"
                      :: tf ++ [EPrint line] ++ [EPrint "Failed to calculate RSI"]))
        \/ (exists klines r, o = Returned klines /\ is_not_none klines = true
            /\ calculate_rsi lib klines env cf
               = (Returned (Some r), cf, [EPrint (rsi_line r)])
            /\ 30 <= r <= 70
            /\ run = (Returned tt, cf,
                      ECall "check_rsi_and_notify" :: tf ++ [EPrint (rsi_line r)]))
        \/ (exists klines r message, o = Returned klines
            /\ is_not_none klines = true
            /\ calculate_rsi lib klines env cf
               = (Returned (Some r), cf, [EPrint (rsi_line r)])
            /\ ((70 < r /\ message = overbought_message r)
                \/ (r < 30 /\ message = oversold_message r))
            /\ run = (result_of (send_rsi_alert n message env cf),
                      counters_of (send_rsi_alert n message env cf),
                      ECall "check_rsi_and_notify"
                      :: tf ++ [EPrint (rsi_line r)]
                      ++ trace_of (send_rsi_alert n message env cf)))).
Proof.
  intros run. subst run. rewrite check_rsi_and_notify_steps.
  unfold make_bot, alert_on. cbn [fetcher calculator notifier].
  pose proof (fetch_klines_terminates f env c) as Hend.
  destruct (fetch_klines f env c) as [[o cf] tf].
  unfold result_of in Hend. simpl in Hend.
  exists o, cf, tf. split; [reflexivity|].
  destruct o as [klines | e |]; [| |contradiction].
  - destruct (is_not_none klines) eqn:Hk.
    + destruct (calculate_rsi_prints lib klines env cf) as (r & line & Hc).
      rewrite Hc. destruct r as [r|].
      * destruct (calculate_rsi_some _ _ _ _ _ _ _ Hc) as [_ Hline].
        injection Hline as ->.
        destruct (Z.gtb_spec r 70) as [Hhi | Hhi].
        -- right. right. right. right.
           exists klines, r, (overbought_message r).
           repeat split; try assumption; [left; split; [lia|reflexivity]|].
           destruct (send_rsi_alert n (overbought_message r) env cf)
             as [[o3 c3] t3]. reflexivity.
        -- destruct (Z.ltb_spec r 30) as [Hlo | Hlo].
           ++ right. right. right. right.
              exists klines, r, (oversold_message r).
              repeat split; try assumption; [right; split; [lia|reflexivity]|].
              destruct (send_rsi_alert n (oversold_message r) env cf)
                as [[o3 c3] t3]. reflexivity.
           ++ right. right. right. left. exists klines, r.
              repeat split; try assumption; try lia.
      * right. right. left. exists klines, line.
        repeat split; try assumption; reflexivity.
    + right. left. exists klines. repeat split; try assumption; reflexivity.
  - left. exists e. split; reflexivity.
Qed.

Lemma requests_in_call (method : string) (t : list event) :
  requests_in (ECall method :: t) = requests_in t.
Proof. reflexivity. Qed.

Lemma fetch_klines_quiet
  (f : KlineFetcher) (env : Env) (c cf : Counters)
  (o : outcome value) (tf : list event) :
  fetch_klines f env c = (o, cf, tf) ->
  jobs cf = jobs c /\ sends cf = sends c
  /\ cycles_in tf = 0%nat /\ sent_in tf = [].
Proof.
  intros H.
  pose proof (fetch_loop_effects f env (S (Z.to_nat (max_retries f))) 0 c) as He.
  fold (fetch_klines f) in He. rewrite H in He.
  unfold counters_of, trace_of in He. simpl in He.
  destruct He as (Hj & Hs & Ht).
  destruct (fetch_events_quiet _ Ht) as [Hc Hq].
  repeat split; assumption.
Qed.

(** X7. When every reply within the budget asks for another round, the cycle
    ends quietly: [max_retries] requests, the two failure lines, no call of
    the calculator or the notifier, and no exception. *)
Theorem cycle_without_data_sends_nothing
  (lib : Library) (f : KlineFetcher) (n : Notifier) (env : Env) (c : Counters) :
  0 <= max_retries f ->
  0 <= retry_after_seconds f ->
  (forall i, (i < Z.to_nat (max_retries f))%nat ->
             retryable (classify (http env (gets c + i))) = true) ->
  let run := check_rsi_and_notify (make_bot lib f n) env c in
  run = (Returned tt, add_gets (Z.to_nat (max_retries f)) c,
         ECall "check_rsi_and_notify"
         :: rounds_trace f env (gets c) (Z.to_nat (max_retries f))
         ++ [EPrint exhausted_line; EPrint "Failed to fetch klines data"])
  /\ sent_in (trace_of run) = []
  /\ Z.of_nat (requests_in (trace_of run)) = max_retries f.
Proof.
  intros Hn Hd Hall run. subst run.
  assert (E : check_rsi_and_notify (make_bot lib f n) env c =
              (Returned tt, add_gets (Z.to_nat (max_retries f)) c,
               ECall "check_rsi_and_notify"
               :: rounds_trace f env (gets c) (Z.to_nat (max_retries f))
               ++ [EPrint exhausted_line; EPrint "Failed to fetch klines data"])).
  { rewrite check_rsi_and_notify_steps.
    unfold make_bot. cbn [fetcher calculator notifier].
    rewrite (fetch_klines_gives_up f env c Hn Hd Hall).
    cbn [is_not_none]. rewrite <- app_assoc. reflexivity. }
  rewrite E. unfold trace_of. cbn [snd].
  pose proof (fetch_klines_quiet f env c _ _ _
                (fetch_klines_gives_up f env c Hn Hd Hall)) as (_ & _ & _ & Hq).
  rewrite sent_in_app in Hq. apply app_eq_nil in Hq. destruct Hq as [Hq _].
  split; [reflexivity|]. split.
  - rewrite sent_in_call, sent_in_app, Hq. reflexivity.
  - rewrite requests_in_call, requests_in_app, requests_in_rounds.
    change (requests_in [EPrint exhausted_line;
                         EPrint "Failed to fetch klines data"]) with 0%nat.
    lia.
Qed.

Lemma cycle_without_data_sends_nothing_witness :
  let run := check_rsi_and_notify main_bot (env_of always_429) start in
  result_of run = Returned tt
  /\ sent_in (trace_of run) = []
  /\ Z.of_nat (requests_in (trace_of run)) = 3.
Proof.
  intros run.
  destruct (cycle_without_data_sends_nothing Reference.library default_fetcher
              alerts_channel (env_of always_429) start) as (E & Hs & Hq).
  - simpl; lia.
  - simpl; lia.
  - intros i _. reflexivity.
  - subst run. unfold main_bot.
    split; [rewrite E; reflexivity|]. split; assumption.
Defined.

(** X8. An answer whose "result" is [null] ends the fetch with [None] after that
    one request, and the cycle takes it for a failed fetch: no retry, no
    "Max retries" line, no call of the calculator, no alert. *)
Theorem cycle_takes_null_result_for_failure
  (lib : Library) (f : KlineFetcher) (n : Notifier) (env : Env) (c : Counters)
  (s : Z) (data : value) :
  0 < max_retries f ->
  http env (gets c) = Response s (inr data) ->
  ~ 400 <= s < 600 ->
  getitem data "result" = inr VNone ->
  fetch_klines f env c = (Returned VNone, add_gets 1 c, [EGet (kline_url f)])
  /\ check_rsi_and_notify (make_bot lib f n) env c
     = (Returned tt, add_gets 1 c,
        [ECall "check_rsi_and_notify"; EGet (kline_url f);
         EPrint "Failed to fetch klines data"]).
Proof.
  intros Hmax Hreply Hs Hg.
  assert (Hf : fetch_klines f env c =
               (Returned VNone, add_gets 1 c, [EGet (kline_url f)])).
  { unfold fetch_klines. rewrite fetch_loop_unfold.
    destruct (Z.ltb_spec 0 (max_retries f)); [|lia].
    unfold bind.
    rewrite loop_body_spec, Hreply, (classify_success s data VNone Hs Hg).
    reflexivity. }
  split; [exact Hf|].
  rewrite check_rsi_and_notify_steps.
  unfold make_bot. cbn [fetcher calculator notifier].
  rewrite Hf. reflexivity.
Qed.

Lemma cycle_takes_null_result_for_failure_witness :
  check_rsi_and_notify main_bot (steady_env VNone) start
  = (Returned tt, add_gets 1 start,
     [ECall "check_rsi_and_notify"; EGet (kline_url default_fetcher);
      EPrint "Failed to fetch klines data"]).
Proof.
  apply (cycle_takes_null_result_for_failure Reference.library default_fetcher
           alerts_channel (steady_env VNone) start 200
           (VDict [("retCode", VInt 0); ("result", VNone)])).
  - simpl; lia.
  - reflexivity.
  - lia.
  - reflexivity.
Defined.

(** X9. A cycle sends a message only when the fetch returned data, the
    calculator returned an RSI beyond a threshold, and the message is the one
    for that threshold; it is then the only message of the cycle. *)
Theorem alerts_only_beyond_thresholds
  (lib : Library) (f : KlineFetcher) (n : Notifier) (env : Env) (c : Counters)
  (m : string) :
  let run := check_rsi_and_notify (make_bot lib f n) env c in
  In m (sent_in (trace_of run)) ->
  exists klines cf tf r,
    fetch_klines f env c = (Returned klines, cf, tf)
    /\ is_not_none klines = true
    /\ calculate_rsi lib klines env cf
       = (Returned (Some r), cf, [EPrint (rsi_line r)])
    /\ ((70 < r /\ m = overbought_message r)
        \/ (r < 30 /\ m = oversold_message r))
    /\ sent_in (trace_of run) = [m].
Proof.
  intros run Hin.
  destruct (cycle_cases lib f n env c) as (o & cf & tf & Hf & Hcase).
  fold run in Hcase.
  destruct (fetch_klines_quiet f env c cf o tf Hf) as (_ & _ & _ & Hq).
  destruct Hcase as [(e & -> & Hrun)
                    | [(klines & -> & Hk & Hrun)
                    | [(klines & line & -> & Hk & Hc & Hrun)
                    | [(klines & r & -> & Hk & Hc & Hr & Hrun)
                    | (klines & r & message & -> & Hk & Hc & Hr & Hrun)]]]];
    rewrite Hrun in Hin |- *; unfold trace_of in Hin |- *; cbn [snd] in Hin |- *;
    rewrite sent_in_call in Hin |- *.
  - rewrite Hq in Hin. destruct Hin.
  - rewrite sent_in_app, Hq in Hin. destruct Hin.
  - rewrite !sent_in_app, Hq in Hin. destruct Hin.
  - rewrite sent_in_app, Hq in Hin. destruct Hin.
  - rewrite !sent_in_app, Hq in Hin |- *.
    fold (trace_of (send_rsi_alert n message env cf)) in Hin |- *.
    rewrite send_rsi_alert_trace in Hin |- *.
    destruct (get_channel env (channel_id n)); simpl in Hin |- *.
    + destruct Hin as [<- | []].
      exists klines, cf, tf, r. repeat split; assumption.
    + destruct Hin.
Qed.

Lemma alerts_only_beyond_thresholds_witness :
  exists klines cf tf r,
    fetch_klines default_fetcher (steady_env test_klines) start
    = (Returned klines, cf, tf)
    /\ is_not_none klines = true
    /\ calculate_rsi (canned_library [Reference.of_Z 71]) klines
         (steady_env test_klines) cf
       = (Returned (Some r), cf, [EPrint (rsi_line r)])
    /\ ((70 < r /\ "RSI is overbought at 71" = overbought_message r)
        \/ (r < 30 /\ "RSI is overbought at 71" = oversold_message r))
    /\ sent_in (trace_of (check_rsi_and_notify (canned_bot 71)
                            (steady_env test_klines) start))
       = ["RSI is overbought at 71"].
Proof.
  apply (alerts_only_beyond_thresholds (canned_library [Reference.of_Z 71])
           default_fetcher alerts_channel (steady_env test_klines) start
           "RSI is overbought at 71").
  vm_compute. left. reflexivity.
Defined.

(** X10. Within a cycle the fetch comes first and nothing after it asks the
    endpoint or sleeps again; a message, if one is sent, is the last event
    of the cycle. *)
Theorem cycle_fetches_before_it_notifies
  (lib : Library) (f : KlineFetcher) (n : Notifier) (env : Env) (c : Counters) :
  let run := check_rsi_and_notify (make_bot lib f n) env c in
  exists rest,
    trace_of run
    = ECall "check_rsi_and_notify" :: trace_of (fetch_klines f env c) ++ rest
    /\ requests_in rest = 0%nat
    /\ sleeps_in rest = []
    /\ (forall m, In m (sent_in (trace_of run)) ->
        exists front,
          trace_of run = front ++ [ESend (channel_id n) m]
          /\ sent_in front = []).
Proof.
  intros run.
  destruct (cycle_cases lib f n env c) as (o & cf & tf & Hf & Hcase).
  fold run in Hcase. rewrite Hf.
  destruct (fetch_klines_quiet f env c cf o tf Hf) as (_ & _ & _ & Hq).
  unfold trace_of at 2. cbn [snd].
  destruct Hcase as [(e & -> & Hrun)
                    | [(klines & -> & Hk & Hrun)
                    | [(klines & line & -> & Hk & Hc & Hrun)
                    | [(klines & r & -> & Hk & Hc & Hr & Hrun)
                    | (klines & r & message & -> & Hk & Hc & Hr & Hrun)]]]];
    rewrite Hrun; unfold trace_of; cbn [snd].
  - exists []. rewrite app_nil_r. repeat split.
    intros m Hin. rewrite sent_in_call, Hq in Hin. destruct Hin.
  - exists [EPrint "Failed to fetch klines data"]. repeat split.
    intros m Hin. rewrite sent_in_call, sent_in_app, Hq in Hin. destruct Hin.
  - exists ([EPrint line] ++ [EPrint "Failed to calculate RSI"]). repeat split.
    intros m Hin. rewrite sent_in_call, !sent_in_app, Hq in Hin. destruct Hin.
  - exists [EPrint (rsi_line r)]. repeat split.
    intros m Hin. rewrite sent_in_call, sent_in_app, Hq in Hin. destruct Hin.
  - fold (trace_of (send_rsi_alert n message env cf)).
    rewrite send_rsi_alert_trace.
    exists ([EPrint (rsi_line r)]
            ++ (if get_channel env (channel_id n)
                then [ESend (channel_id n) message] else [])).
    destruct (get_channel env (channel_id n)).
    + repeat split.
      intros m Hin. rewrite sent_in_call, !sent_in_app, Hq in Hin.
      simpl in Hin. destruct Hin as [<- | []].
      exists (ECall "check_rsi_and_notify" :: tf ++ [EPrint (rsi_line r)]).
      split.
      * simpl. rewrite <- app_assoc. reflexivity.
      * rewrite sent_in_call, sent_in_app, Hq. reflexivity.
    + repeat split.
      intros m Hin. rewrite sent_in_call, !sent_in_app, Hq in Hin.
      destruct Hin.
Qed.

(** X11. An exception that leaves a cycle was raised by the fetch, or by the
    notifier: the [AttributeError] of an unknown channel, or the failure of
    the delivery.  The calculator never adds one. *)
Theorem cycle_raises_only_from_fetch_or_send
  (lib : Library) (f : KlineFetcher) (n : Notifier) (env : Env) (c : Counters)
  (e : exn) :
  result_of (check_rsi_and_notify (make_bot lib f n) env c) = Raised e ->
  result_of (fetch_klines f env c) = Raised e
  \/ (get_channel env (channel_id n) = false
      /\ e = Error "AttributeError" "'NoneType' object has no attribute 'send'")
  \/ (get_channel env (channel_id n) = true
      /\ delivery env (sends c) = Some e).
Proof.
  intros Hr.
  destruct (cycle_cases lib f n env c) as (o & cf & tf & Hf & Hcase).
  destruct (fetch_klines_quiet f env c cf o tf Hf) as (_ & Hs & _ & _).
  rewrite Hf. unfold result_of at 1. cbn [fst].
  destruct Hcase as [(e0 & -> & Hrun)
                    | [(klines & -> & Hk & Hrun)
                    | [(klines & line & -> & Hk & Hc & Hrun)
                    | [(klines & r & -> & Hk & Hc & Hb & Hrun)
                    | (klines & r & message & -> & Hk & Hc & Hb & Hrun)]]]];
    rewrite Hrun in Hr; unfold result_of in Hr; cbn [fst] in Hr;
    try discriminate.
  - left. congruence.
  - right. unfold send_rsi_alert in Hr.
    destruct (get_channel env (channel_id n)).
    + right. split; [reflexivity|]. rewrite <- Hs.
      destruct (delivery env (sends cf)); [|discriminate].
      simpl in Hr. congruence.
    + left. split; [reflexivity|]. simpl in Hr. congruence.
Qed.

Lemma cycle_raises_only_from_fetch_or_send_witness :
  result_of (fetch_klines default_fetcher
               (unknown_channel_env (replies [] (ok_reply test_klines))) start)
  = Raised (Error "AttributeError" "'NoneType' object has no attribute 'send'")
  \/ (get_channel (unknown_channel_env (replies [] (ok_reply test_klines)))
        (channel_id alerts_channel) = false
      /\ Error "AttributeError" "'NoneType' object has no attribute 'send'"
         = Error "AttributeError" "'NoneType' object has no attribute 'send'")
  \/ (get_channel (unknown_channel_env (replies [] (ok_reply test_klines)))
        (channel_id alerts_channel) = true
      /\ delivery (unknown_channel_env (replies [] (ok_reply test_klines)))
           (sends start)
         = Some (Error "AttributeError" "'NoneType' object has no attribute 'send'")).
Proof.
  apply (cycle_raises_only_from_fetch_or_send Reference.library default_fetcher
           alerts_channel
           (unknown_channel_env (replies [] (ok_reply test_klines))) start).
  vm_compute. reflexivity.
Defined.

(** X12. With an RSI beyond a threshold, a notifier that fails makes the cycle
    fail: an unknown channel raises [AttributeError] before anything is
    sent, and a delivery that fails raises its error after the one call of
    [send].  In both cases the fetch and the "RSI value" line came first. *)
Theorem failed_alert_leaves_the_cycle
  (lib : Library) (f : KlineFetcher) (n : Notifier) (env : Env)
  (c cf c2 : Counters) (tf t2 : list event) (klines : value) (r : Z) :
  fetch_klines f env c = (Returned klines, cf, tf) ->
  is_not_none klines = true ->
  calculate_rsi lib klines env cf = (Returned (Some r), c2, t2) ->
  r < 30 \/ 70 < r ->
  let run := check_rsi_and_notify (make_bot lib f n) env c in
  let message :=
    if r >? 70 then overbought_message r else oversold_message r in
  (get_channel env (channel_id n) = false ->
   run = (Raised (Error "AttributeError" "'NoneType' object has no attribute 'send'"),
          cf, ECall "check_rsi_and_notify" :: tf ++ [EPrint (rsi_line r)]))
  /\ (forall e,
        get_channel env (channel_id n) = true ->
        delivery env (sends c) = Some e ->
        result_of run = Raised e
        /\ trace_of run
           = ECall "check_rsi_and_notify"
             :: tf ++ [EPrint (rsi_line r); ESend (channel_id n) message]).
Proof.
  intros Hf Hk Hc Hr run message. subst run message.
  destruct (calculate_rsi_some _ _ _ _ _ _ _ Hc) as [-> ->].
  destruct (fetch_klines_quiet f env c cf _ tf Hf) as (_ & Hs & _ & _).
  rewrite check_rsi_and_notify_steps.
  unfold make_bot, alert_on. cbn [fetcher calculator notifier].
  rewrite Hf, Hk, Hc.
  assert (Hmsg : forall message,
            (get_channel env (channel_id n) = false ->
             (let '(o, c3, t3) := send_rsi_alert n message env cf in
              (o, c3, ECall "check_rsi_and_notify"
                      :: tf ++ [EPrint (rsi_line r)] ++ t3))
             = (Raised (Error "AttributeError"
                          "'NoneType' object has no attribute 'send'"),
                cf, ECall "check_rsi_and_notify" :: tf ++ [EPrint (rsi_line r)]))
            /\ (forall e,
                  get_channel env (channel_id n) = true ->
                  delivery env (sends c) = Some e ->
                  result_of
                    (let '(o, c3, t3) := send_rsi_alert n message env cf in
                     (o, c3, ECall "check_rsi_and_notify"
                             :: tf ++ [EPrint (rsi_line r)] ++ t3))
                  = Raised e
                  /\ trace_of
                       (let '(o, c3, t3) := send_rsi_alert n message env cf in
                        (o, c3, ECall "check_rsi_and_notify"
                                :: tf ++ [EPrint (rsi_line r)] ++ t3))
                     = ECall "check_rsi_and_notify"
                       :: tf ++ [EPrint (rsi_line r);
                                 ESend (channel_id n) message])).
  { intros message. unfold send_rsi_alert. split.
    - intros ->. rewrite app_nil_r. reflexivity.
    - intros e -> Hd. rewrite Hs, Hd. split; reflexivity. }
  destruct (Z.gtb_spec r 70) as [Hhi | Hhi].
  - apply Hmsg.
  - destruct (Z.ltb_spec r 30) as [Hlo | Hlo]; [apply Hmsg | lia].
Qed.

Lemma failed_alert_leaves_the_cycle_witness :
  result_of (check_rsi_and_notify (canned_bot 29)
               (failing_delivery_env (replies [] (ok_reply test_klines))
                  (Error "Forbidden" "Missing Permissions")) start)
  = Raised (Error "Forbidden" "Missing Permissions")
  /\ sent_in (trace_of (check_rsi_and_notify (canned_bot 29)
                 (failing_delivery_env (replies [] (ok_reply test_klines))
                    (Error "Forbidden" "Missing Permissions")) start))
     = ["RSI is oversold at 29"].
Proof.
  destruct (failed_alert_leaves_the_cycle
              (canned_library [Reference.of_Z 29]) default_fetcher alerts_channel
              (failing_delivery_env (replies [] (ok_reply test_klines))
                 (Error "Forbidden" "Missing Permissions"))
              start _ _ _ _ test_klines 29 eq_refl eq_refl eq_refl
              ltac:(lia)) as [_ H].
  destruct (H (Error "Forbidden" "Missing Permissions") eq_refl eq_refl)
    as [Hr Ht].
  split; [exact Hr|]. unfold canned_bot. rewrite Ht. reflexivity.
Defined.

(** The loop sees the endpoint through the replies it gets and nothing else:
    two runs that are given the same replies in the same order end the same
    way and leave the same trace. *)
Lemma fetch_loop_same_replies (f : KlineFetcher) (env env' : Env) :
  forall (fuel : nat) (retries : Z) (c c' : Counters),
  (forall i, http env (gets c + i) = http env' (gets c' + i)) ->
  result_of (fetch_loop fuel f retries env c)
  = result_of (fetch_loop fuel f retries env' c')
  /\ trace_of (fetch_loop fuel f retries env c)
     = trace_of (fetch_loop fuel f retries env' c').
Proof.
  induction fuel as [|fuel IH]; intros retries c c' Hsame.
  - split; reflexivity.
  - rewrite !fetch_loop_unfold.
    destruct (Z.ltb_spec retries (max_retries f)); [|split; reflexivity].
    unfold bind. rewrite !loop_body_spec.
    pose proof (Hsame 0%nat) as H0. rewrite !Nat.add_0_r in H0. rewrite <- H0.
    assert (Hnext : forall i,
              http env (gets (add_gets 1 c) + i)
              = http env' (gets (add_gets 1 c') + i)).
    { intros i. simpl.
      replace (S (gets c + i)) with (gets c + S i)%nat by lia.
      replace (S (gets c' + i)) with (gets c' + S i)%nat by lia.
      apply Hsame. }
    specialize (IH (retries + 1) _ _ Hnext).
    destruct (classify (http env (gets c))).
    + split; reflexivity.
    + destruct (retry_after_seconds f <? 0); [split; reflexivity|].
      destruct (fetch_loop fuel f (retries + 1) env (add_gets 1 c))
        as [[r1 c1] t1].
      destruct (fetch_loop fuel f (retries + 1) env' (add_gets 1 c'))
        as [[r2 c2] t2].
      unfold result_of, trace_of in *. simpl in *.
      destruct IH as [-> ->]. split; reflexivity.
    + split; reflexivity.
    + destruct (fetch_loop fuel f (retries + 1) env (add_gets 1 c))
        as [[r1 c1] t1].
      destruct (fetch_loop fuel f (retries + 1) env' (add_gets 1 c'))
        as [[r2 c2] t2].
      unfold result_of, trace_of in *. simpl in *.
      destruct IH as [-> ->]. split; reflexivity.
Qed.

(** X13. A cycle keeps nothing from the cycles before it: started at two
    points of a run where the endpoint and the chat platform answer alike,
    it ends the same way and leaves the same trace, the same alert
    included. *)
Theorem cycle_keeps_no_memory
  (lib : Library) (f : KlineFetcher) (n : Notifier) (env : Env)
  (c c' : Counters) :
  (forall i, http env (gets c + i) = http env (gets c' + i)) ->
  delivery env (sends c) = delivery env (sends c') ->
  result_of (check_rsi_and_notify (make_bot lib f n) env c)
  = result_of (check_rsi_and_notify (make_bot lib f n) env c')
  /\ trace_of (check_rsi_and_notify (make_bot lib f n) env c)
     = trace_of (check_rsi_and_notify (make_bot lib f n) env c').
Proof.
  intros Hhttp Hdel.
  rewrite !check_rsi_and_notify_steps.
  unfold make_bot, alert_on. cbn [fetcher calculator notifier].
  destruct (fetch_loop_same_replies f env env
              (S (Z.to_nat (max_retries f))) 0 c c' Hhttp) as [Hres Htr].
  fold (fetch_klines f) in Hres, Htr.
  pose proof (fetch_klines_quiet f env c) as Hq.
  pose proof (fetch_klines_quiet f env c') as Hq'.
  destruct (fetch_klines f env c) as [[o cf] tf].
  destruct (fetch_klines f env c') as [[o' cf'] tf'].
  unfold result_of, trace_of in Hres, Htr. simpl in Hres, Htr. subst o' tf'.
  destruct (Hq _ _ _ eq_refl) as (_ & Hs & _ & _).
  destruct (Hq' _ _ _ eq_refl) as (_ & Hs' & _ & _).
  destruct o as [klines | e |]; try (split; reflexivity).
  destruct (is_not_none klines); [|split; reflexivity].
  rewrite (calculate_rsi_spec lib klines env cf),
          (calculate_rsi_spec lib klines env cf').
  destruct (contains klines "list") as [e | [|]]; try (split; reflexivity).
  destruct (getitem klines "list") as [e | rows]; try (split; reflexivity).
  destruct (truthy rows); try (split; reflexivity).
  destruct (last_rsi lib rows) as [e | r]; try (split; reflexivity).
  assert (Hsend : forall message,
            result_of (send_rsi_alert n message env cf)
            = result_of (send_rsi_alert n message env cf')
            /\ trace_of (send_rsi_alert n message env cf)
               = trace_of (send_rsi_alert n message env cf')).
  { intros message. unfold send_rsi_alert. rewrite Hs, Hs', Hdel.
    destruct (get_channel env (channel_id n)); [|split; reflexivity].
    destruct (delivery env (sends c')); split; reflexivity. }
  destruct (r >? 70).
  - destruct (Hsend (overbought_message r)) as [H1 H2].
    destruct (send_rsi_alert n (overbought_message r) env cf) as [[o1 c1] t1].
    destruct (send_rsi_alert n (overbought_message r) env cf') as [[o2 c2] t2].
    unfold result_of, trace_of in *. simpl in *. subst. split; reflexivity.
  - destruct (r <? 30); [|split; reflexivity].
    destruct (Hsend (oversold_message r)) as [H1 H2].
    destruct (send_rsi_alert n (oversold_message r) env cf) as [[o1 c1] t1].
    destruct (send_rsi_alert n (oversold_message r) env cf') as [[o2 c2] t2].
    unfold result_of, trace_of in *. simpl in *. subst. split; reflexivity.
Qed.

Lemma cycle_keeps_no_memory_witness :
  let env := steady_env test_klines in
  let first := check_rsi_and_notify main_bot env start in
  let second := check_rsi_and_notify main_bot env (counters_of first) in
  sent_in (trace_of first) = ["RSI is overbought at 100"]
  /\ trace_of first = trace_of second.
Proof.
  intros env first second. split; [vm_compute; reflexivity|].
  apply (cycle_keeps_no_memory Reference.library default_fetcher
           alerts_channel env start (counters_of first)).
  - intros i. unfold env, steady_env, env_of, replies. cbn [http].
    destruct (gets start + i)%nat; destruct (gets (counters_of first) + i)%nat;
      reflexivity.
  - reflexivity.
Defined.

(** X4. Each call of [fetch_klines] starts from the whole budget and from the
    replies that are still to come: two calls that get the same replies, at
    whatever point of a run, end the same way and leave the same trace. *)
Theorem fetch_klines_keeps_no_memory
  (f : KlineFetcher) (env env' : Env) (c c' : Counters) :
  (forall i, http env (gets c + i) = http env' (gets c' + i)) ->
  result_of (fetch_klines f env c) = result_of (fetch_klines f env' c')
  /\ trace_of (fetch_klines f env c) = trace_of (fetch_klines f env' c').
Proof.
  intros H. apply (fetch_loop_same_replies f env env'). exact H.
Qed.

Lemma fetch_klines_keeps_no_memory_witness :
  let first := fetch_klines default_fetcher (env_of always_429) start in
  let second :=
    fetch_klines default_fetcher (env_of always_429) (counters_of first) in
  gets (counters_of second) = 6%nat
  /\ trace_of first = trace_of second.
Proof.
  intros first second. split; [reflexivity|].
  apply (fetch_klines_keeps_no_memory default_fetcher
           (env_of always_429) (env_of always_429) start (counters_of first)).
  intros i. reflexivity.
Defined.

(** ** Becoming ready *)

(** X14. [on_ready] prints the login line, runs the first cycle and ends as that
    cycle ends; it arms one more hourly job exactly when the cycle returned,
    beside whatever jobs were armed before, and none when it raised. *)
Theorem on_ready_follows_the_first_cycle
  (lib : Library) (f : KlineFetcher) (n : Notifier) (user : string)
  (env : Env) (c : Counters) :
  let first := check_rsi_and_notify (make_bot lib f n) env c in
  let ready := on_ready (make_bot lib f n) user env c in
  result_of ready = result_of first
  /\ trace_of ready = EPrint ("Logged in as " ++ user)%string :: trace_of first
  /\ gets (counters_of ready) = gets (counters_of first)
  /\ sends (counters_of ready) = sends (counters_of first)
  /\ jobs (counters_of ready)
     = match result_of first with
       | Returned _ => jobs c ++ [hourly_job]
       | _ => jobs c
       end.
Proof.
  intros first ready. subst first ready.
  pose proof (check_rsi_and_notify_effects lib f n env c) as He.
  unfold on_ready, bind, print, emit, periodic_rsi_check.
  destruct (check_rsi_and_notify (make_bot lib f n) env c) as [[o c1] t1].
  unfold result_of, counters_of, trace_of in *. simpl in He.
  destruct He as (Hj & _ & _ & _).
  destruct o as [[] | e |]; simpl; rewrite ?app_nil_r, ?Hj;
    repeat split; reflexivity.
Qed.
